(** * job-search: the scrape-then-enrich pipeline

    A shallow embedding of [job_search.py] (the LinkedIn scraper and its
    JSON store) and [job_search_AI.py] (query planning, relevance
    classification, summarisation and the main pipeline), followed by the
    properties of the specification that can be stated over it.

    Conventions.
    - A Python [str] is held as the Rocq [string] of its UTF-8 bytes; its
      characters are the code points, see [PyStr.code_points].
    - A Python [float] is a binary64 [float].
    - Python objects that travel through [json] are values of type [value].
    - A [dict] is an association list in insertion order with unique keys.
    - The outside world (network, model server) and the file system are
      threaded explicitly through a state-and-exception monad [M].
    - The directory [./offers] is taken to exist and to be writable. *)

From Stdlib Require Import ZArith Floats String Ascii List DecimalString Sorted Lia.
From stdpp Require Import base option list strings gmap.

Local Open Scope string_scope.
Local Open Scope Z_scope.
Local Open Scope list_scope.
Set Warnings "-register-all".

(** ** Python strings *)

Module PyStr.

(** A byte of the form 10xxxxxx continues a code point; any other byte
    begins one. *)
Definition is_continuation (c : ascii) : bool :=
  let n := N_of_ascii c in ((128 <=? n) && (n <=? 191))%N.

Definition starts_with_continuation (s : string) : bool :=
  match s with
  | EmptyString => false
  | String c _ => is_continuation c
  end.

(** The characters of a [str], each as the bytes of its encoding. *)
Fixpoint code_points (s : string) : list string :=
  match s with
  | EmptyString => []
  | String c s' =>
      match code_points s' with
      | [] => [String c EmptyString]
      | p :: ps =>
          if starts_with_continuation p then String c p :: ps
          else String c EmptyString :: p :: ps
      end
  end.

Definition of_bytes (l : list N) : string :=
  string_of_list_ascii (map ascii_of_N l).

(** The characters for which [str.isspace] holds: U+0009-000D, U+001C-001F,
    U+0020, U+0085, U+00A0, U+1680, U+2000-200A, U+2028, U+2029, U+202F,
    U+205F and U+3000. *)
Definition whitespace : list string :=
  map of_bytes
    [ [9]; [10]; [11]; [12]; [13]; [28]; [29]; [30]; [31]; [32];
      [194; 133]; [194; 160]; [225; 154; 128];
      [226; 128; 128]; [226; 128; 129]; [226; 128; 130]; [226; 128; 131];
      [226; 128; 132]; [226; 128; 133]; [226; 128; 134]; [226; 128; 135];
      [226; 128; 136]; [226; 128; 137]; [226; 128; 138];
      [226; 128; 168]; [226; 128; 169]; [226; 128; 175];
      [226; 129; 159]; [227; 128; 128] ]%N.

(** [ch.isspace()] on one character. *)
Definition isspace (ch : string) : bool :=
  existsb (String.eqb ch) whitespace.

Fixpoint lstrip (l : list string) : list string :=
  match l with
  | [] => []
  | ch :: l' => if isspace ch then lstrip l' else l
  end.

Fixpoint rstrip (l : list string) : list string :=
  match l with
  | [] => []
  | ch :: l' =>
      match rstrip l' with
      | [] => if isspace ch then [] else [ch]
      | r => ch :: r
      end
  end.

(** [s.strip()] *)
Definition strip (s : string) : string :=
  String.concat EmptyString (lstrip (rstrip (code_points s))).

(** [s.split(sep)] for a one-character separator; never empty. *)
Fixpoint split (sep : ascii) (s : string) : list string :=
  match s with
  | EmptyString => [EmptyString]
  | String c s' =>
      if Ascii.eqb c sep then EmptyString :: split sep s'
      else match split sep s' with
           | [] => [String c EmptyString]
           | w :: ws => String c w :: ws
           end
  end.

(** The maximal runs of non-space characters of [s], in order. *)
Fixpoint tokens_aux (l : list string) : string * list string :=
  match l with
  | [] => (EmptyString, [])
  | ch :: l' =>
      let '(w, ws) := tokens_aux l' in
      if isspace ch
      then (EmptyString, match w with EmptyString => ws | _ => w :: ws end)
      else ((ch ++ w)%string, ws)
  end.

Definition tokens (s : string) : list string :=
  let '(w, ws) := tokens_aux (code_points s) in
  match w with EmptyString => ws | _ => w :: ws end.

(** [", ".join(l)] and friends. *)
Definition join (sep : string) (l : list string) : string := String.concat sep l.

(** [f"{n}"] for an [int]. *)
Definition of_int (n : Z) : string := NilZero.string_of_int (Z.to_int n).

(** *** [urllib.parse.quote] with its default [safe="/"] *)

Definition in_range (lo hi : N) (c : ascii) : bool :=
  let n := N_of_ascii c in ((lo <=? n) && (n <=? hi))%N.

Definition always_safe (c : ascii) : bool :=
  in_range 65 90 c || in_range 97 122 c || in_range 48 57 c
  || Ascii.eqb c "_" || Ascii.eqb c "." || Ascii.eqb c "-" || Ascii.eqb c "~"
  || Ascii.eqb c "/".

Definition hex_digit (n : N) : ascii :=
  if (n <? 10)%N then ascii_of_N (48 + n) else ascii_of_N (55 + n).

Definition percent (c : ascii) : string :=
  let n := N_of_ascii c in
  String "%" (String (hex_digit (n / 16)) (String (hex_digit (n mod 16)) EmptyString)).

Fixpoint quote (s : string) : string :=
  match s with
  | EmptyString => EmptyString
  | String c s' =>
      (if always_safe c then String c EmptyString else percent c) ++ quote s'
  end.

End PyStr.

(** ** Python values, as far as [json] carries them *)

Inductive value : Type :=
| VNone
| VBool (b : bool)
| VInt (n : Z)
| VFloat (x : float)
| VStr (s : string)
| VList (l : list value)
| VDict (d : list (string * value)).

(** Dictionaries in insertion order. *)
Module Dict.
Section Assoc.
Context {V : Type}.

(** [d.get(k)] *)
Fixpoint get (k : string) (d : list (string * V)) : option V :=
  match d with
  | [] => None
  | (k', v) :: d' => if String.eqb k k' then Some v else get k d'
  end.

(** [d[k] = v]: an existing key keeps its position, a new one goes last. *)
Fixpoint set (k : string) (v : V) (d : list (string * V)) : list (string * V) :=
  match d with
  | [] => [(k, v)]
  | (k', v') :: d' =>
      if String.eqb k k' then (k, v) :: d' else (k', v') :: set k v d'
  end.

Definition keys (d : list (string * V)) : list string := map fst d.

(** A literal [{k1: v1, ..., kn: vn}] inserts left to right. *)
Definition literal (kvs : list (string * V)) : list (string * V) :=
  fold_left (fun d kv => set (fst kv) (snd kv) d) kvs [].
End Assoc.
End Dict.

(** ** Parsed markup, as BeautifulSoup presents it *)

(** The classes of string other than [NavigableString] itself. *)
Inductive StringClass : Type :=
| CData
| Comment
| Declaration
| Doctype
| ProcessingInstruction
| Stylesheet
| Script
| TemplateString
| RubyTextString
| RubyParenthesisString.

Inductive Node : Type :=
| NavigableString (s : string)
| OtherString (cls : StringClass) (s : string)
| Tag (name : string) (attrs : list (string * string)) (contents : list Node).

Module Soup.

(** [tag.descendants]: every node below [n], in document order. *)
Fixpoint descendants (n : Node) : list Node :=
  match n with
  | NavigableString _ | OtherString _ _ => []
  | Tag _ _ cs => flat_map (fun c => c :: descendants c) cs
  end.

(** The same for a whole document (a [BeautifulSoup] object). *)
Definition all_nodes (doc : list Node) : list Node :=
  flat_map (fun c => c :: descendants c) doc.

(** The builder's [string_containers]: the class given to the strings of
    a tag of that name, and the only class its text is made of. *)
Definition string_container (name : string) : option StringClass :=
  if String.eqb name "rt" then Some RubyTextString
  else if String.eqb name "rp" then Some RubyParenthesisString
  else if String.eqb name "style" then Some Stylesheet
  else if String.eqb name "script" then Some Script
  else if String.eqb name "template" then Some TemplateString
  else None.

Definition same_class (c1 c2 : StringClass) : bool :=
  match c1, c2 with
  | CData, CData | Comment, Comment | Declaration, Declaration
  | Doctype, Doctype | ProcessingInstruction, ProcessingInstruction
  | Stylesheet, Stylesheet | Script, Script
  | TemplateString, TemplateString | RubyTextString, RubyTextString
  | RubyParenthesisString, RubyParenthesisString => true
  | _, _ => false
  end.

(** The strings that count for the text of a tag named [name]
    ([interesting_string_types]): those of its container class, or by
    default the plain strings and the CDATA sections.  Comments and the
    strings of scripts, style sheets and templates below another tag do
    not count. *)
Definition interesting (name : string) (n : Node) : option string :=
  match n with
  | NavigableString s =>
      match string_container name with
      | None => Some s
      | Some _ => None
      end
  | OtherString cls s =>
      match string_container name with
      | None => if same_class cls CData then Some s else None
      | Some c => if same_class cls c then Some s else None
      end
  | Tag _ _ _ => None
  end.

(** [tag.text], that is [tag.get_text()] *)
Definition get_text (n : Node) : string :=
  match n with
  | NavigableString s | OtherString _ s => s
  | Tag name _ _ =>
      String.concat "" (omap (interesting name) (descendants n))
  end.

(** [tag.get(attr)] *)
Definition get (attr : string) (n : Node) : option string :=
  match n with
  | NavigableString _ | OtherString _ _ => None
  | Tag _ attrs _ => Dict.get attr attrs
  end.

(** The [class] attribute is multi-valued: it matches a class name when
    one of its whitespace-separated tokens is that name.  (Every class
    name searched for below is free of whitespace.) *)
Definition has_class (cls : string) (n : Node) : bool :=
  match get "class" n with
  | None => false
  | Some v => existsb (String.eqb cls) (PyStr.tokens v)
  end.

Definition matches (name : string) (cls : option string) (n : Node) : bool :=
  match n with
  | NavigableString _ | OtherString _ _ => false
  | Tag name' _ _ =>
      String.eqb name name'
      && match cls with None => true | Some c => has_class c n end
  end.

(** [x.find_all(name, class_=cls)] over the nodes below [x]. *)
Definition find_all_in (name : string) (cls : option string) (nodes : list Node)
  : list Node :=
  List.filter (matches name cls) nodes.

(** [x.find(name, class_=cls)]: the first match or [None]. *)
Definition find_in (name : string) (cls : option string) (nodes : list Node)
  : option Node :=
  head (find_all_in name cls nodes).

Definition find_all (name : string) (cls : option string) (doc : list Node) :=
  find_all_in name cls (all_nodes doc).
Definition find (name : string) (cls : option string) (doc : list Node) :=
  find_in name cls (all_nodes doc).
Definition tag_find (name : string) (cls : option string) (t : Node) :=
  find_in name cls (descendants t).

End Soup.

(** ** Exceptions and results *)

Inductive Exn : Type :=
| JSONDecodeError
| UnicodeDecodeError
| RecursionError
| ValidationError        (* pydantic's; the specification's ModelError *)
| AttributeError
| KeyError (k : string)
| TypeError
| IndexError
| FileNotFoundError.

Inductive Result (A : Type) : Type :=
| Ok (a : A)
| Raise (e : Exn).
Arguments Ok {A} a.
Arguments Raise {A} e.

Definition is_JSONDecodeError (e : Exn) : bool :=
  match e with JSONDecodeError => true | _ => false end.

(** ** The boundary of the program *)

(** What [requests.get] returns, with the markup already handed to
    [BeautifulSoup(response.text, 'html.parser')]. *)
Record Response : Type := { status_code : Z; text : list Node }.

(** The three [BaseModel] classes whose [model_json_schema()] is passed as
    [format]. *)
Inductive Schema : Type :=
| QueryOutput_schema
| RelevanceResult_schema
| JobSummary_schema.

(** A message's content is one of four templates; the constant prose of a
    template is not reproduced, only the values interpolated into it. *)
Inductive Content : Type :=
| query_prompt (user_profile included excluded : string)
| relevance_prompt (user_profile included excluded : string) (title summary : value)
| summary_system
| job_text (title description criteria : value).

Record ChatRequest : Type :=
  { model : string; messages : list (string * Content); format : Schema }.

(** Everything outside the process.  [Text] is what a file holds and what
    a model answers; [World] is the state of the network and of the model
    server.  [json_loads] answers [None] where loading fails, and
    [load_error] is the exception [json.load] then raises on a file:
    [JSONDecodeError] for text that is not JSON, [UnicodeDecodeError] for
    bytes that are not UTF-8, [RecursionError] for too deep a nesting.
    [lax_bool] and [lax_float] are pydantic's conversions of the JSON
    values that are not a boolean, respectively not a float, to a [bool]
    and a [float] ([None] where it refuses). *)
Class Platform : Type :=
  { Text : Type;
    World : Type;
    json_dumps : value -> Text;
    json_loads : Text -> option value;
    load_error : Text -> Exn;
    lax_bool : value -> option bool;
    lax_float : value -> option float;
    requests_get : string -> World -> Response * World;
    ollama_chat : ChatRequest -> World -> Text * World }.

(** The contract of the [json] module on the values of type [value]. *)
Definition json_roundtrip (P : Platform) : Prop :=
  forall v : value, json_loads (json_dumps v) = Some v.

(** ** The state-and-exception monad *)

Section Monad.
Context {P : Platform}.

Record State : Type := { world : World; files : gmap string Text }.

Definition M (A : Type) : Type := State -> Result A * State.

#[global] Instance M_ret : MRet M := fun A a st => (Ok a, st).

#[global] Instance M_bind : MBind M := fun A B f m st =>
  match m st with
  | (Ok a, st') => f a st'
  | (Raise e, st') => (Raise e, st')
  end.

Definition raise {A} (e : Exn) : M A := fun st => (Raise e, st).

Definition lift {A} (r : Result A) : M A := fun st => (r, st).

(** [try: m except <catches>: handler] *)
Definition try_except {A} (m : M A) (catches : Exn -> bool) (handler : M A) : M A :=
  fun st =>
    match m st with
    | (Raise e, st') => if catches e then handler st' else (Raise e, st')
    | r => r
    end.

(** [for x in xs: s = body(x, s)] *)
Fixpoint foldM {A S} (body : A -> S -> M S) (xs : list A) (s : S) : M S :=
  match xs with
  | [] => mret s
  | x :: xs' => s' ← body x s; foldM body xs' s'
  end.

(** [os.path.exists(path)] *)
Definition path_exists (path : string) : M bool :=
  fun st => (Ok (bool_decide (is_Some (files st !! path))), st).

(** [open(path, "r").read()] *)
Definition read_text (path : string) : M Text :=
  fun st =>
    match files st !! path with
    | Some t => (Ok t, st)
    | None => (Raise FileNotFoundError, st)
    end.

(** [open(path, "w").write(t)]: the whole file is replaced. *)
Definition write_text (path : string) (t : Text) : M unit :=
  fun st => (Ok tt, {| world := world st; files := <[path := t]> (files st) |}).

(** [json.load(open(path, "r"))] *)
Definition json_load (path : string) : M value :=
  t ← read_text path;
  match json_loads t with
  | Some v => mret v
  | None => raise (load_error t)
  end.

(** [json.dump(v, open(path, "w"), ensure_ascii=False, indent=2)] *)
Definition json_dump (v : value) (path : string) : M unit :=
  write_text path (json_dumps v).

Definition get_url (url : string) : M Response :=
  fun st =>
    let '(r, w) := requests_get url (world st) in
    (Ok r, {| world := w; files := files st |}).

Definition chat (req : ChatRequest) : M Text :=
  fun st =>
    let '(t, w) := ollama_chat req (world st) in
    (Ok t, {| world := w; files := files st |}).

End Monad.

(** ** [job_search.py]: the scraper and the scraped-jobs store *)

Definition JOBS_FILE : string := "./offers/Jobs_.txt".

Definition UNKNOWN : string := "Unknown".

Definition JOB_POSTING : string :=
  "https://www.linkedin.com/jobs-guest/jobs/api/jobPosting/".

(** The f-string of lines 31-35. *)
Definition job_list_url (query location : string) (start_index : Z) : string :=
  "https://www.linkedin.com/jobs-guest/jobs/api/seeMoreJobPostings/search"
  ++ "?keywords=" ++ PyStr.quote query ++ "&location=" ++ PyStr.quote location
  ++ "&trk=public_jobs_jobs-search-bar_search-submit&pageNum=0&start="
  ++ PyStr.of_int start_index.

(** The f-string of line 54. *)
Definition job_url_of (job_id : string) : string := JOB_POSTING ++ job_id.

(** [safe_text], lines 61-62.  A [Tag] is always truthy. *)
Definition safe_text (tag : option Node) : value :=
  match tag with
  | Some t => VStr (PyStr.strip (Soup.get_text t))
  | None => VStr UNKNOWN
  end.

(** [a or b] on two results of [find]. *)
Definition or_else (a b : option Node) : option Node :=
  match a with Some _ => a | None => b end.

(** [tag.get("href")], the attribute's value or [None]. *)
Definition href_of (tag : Node) : value :=
  match Soup.get "href" tag with
  | Some h => VStr h
  | None => VNone
  end.

(** Lines 59-89: the dictionary appended for one fetched detail page. *)
Definition job_info (job_url : string) (job_soup : list Node) : value :=
  let title := safe_text (Soup.find "h2" (Some "top-card-layout__title") job_soup) in
  let description :=
    safe_text (Soup.find "div" (Some "show-more-less-html__markup") job_soup) in
  let criteria :=
    safe_text (Soup.find "ul" (Some "description__job-criteria-list") job_soup) in
  let organisation_tag := Soup.find "a" (Some "topcard__org-name-link") job_soup in
  let organisation_name := safe_text organisation_tag in
  let organisation_url :=
    match organisation_tag with
    | Some t => href_of t
    | None => VStr UNKNOWN
    end in
  let posted_time :=
    safe_text (Soup.find "span" (Some "posted-time-ago__text") job_soup) in
  let applicants_tag :=
    or_else (Soup.find "figcaption" (Some "num-applicants__caption") job_soup)
            (Soup.find "span" (Some "num-applicants__caption") job_soup) in
  let applicants := safe_text applicants_tag in
  VDict (Dict.literal
    [ ("title", title);
      ("organisation_name", organisation_name);
      ("organisation_url", organisation_url);
      ("description", description);
      ("criteria", criteria);
      ("url", VStr job_url);
      ("posted_time", posted_time);
      ("applicants", applicants) ]).

(** Lines 46-51, one list item: the identifier is the last [":"]-separated
    piece of the card's [data-entity-urn]; an item without a card is
    skipped; a card without the attribute makes [None.split] fail. *)
Definition job_id_of (job : Node) : Result (option string) :=
  match Soup.tag_find "div" (Some "base-card") job with
  | None => Ok None
  | Some div =>
      match Soup.get "data-entity-urn" div with
      | None => Raise AttributeError
      | Some urn =>
          match last (PyStr.split ":" urn) with
          | Some job_id => Ok (Some job_id)
          | None => Raise IndexError
          end
      end
  end.

Section Scraper.
Context {P : Platform}.

(** [l.append(x)]; only a list has [append]. *)
Definition list_append (l : value) (x : value) : M value :=
  match l with
  | VList xs => mret (VList (xs ++ [x]))
  | _ => raise AttributeError
  end.

(** Lines 19-27. *)
Definition load_jobs : M value :=
  found ← path_exists JOBS_FILE;
  if found : bool
  then try_except (json_load JOBS_FILE) is_JSONDecodeError (mret (VList []))
  else mret (VList []).

(** Lines 46-51. *)
Definition collect_id (job : Node) (id_lists : list string) : M (list string) :=
  o ← lift (job_id_of job);
  match o with
  | None => mret id_lists
  | Some job_id => mret (id_lists ++ [job_id])
  end.

(** Lines 53-89, one identifier. *)
Definition scrape_job (job_id : string) (job_info_lists : value) : M value :=
  let job_url := job_url_of job_id in
  job_response ← get_url job_url;
  if negb (status_code job_response =? 200)
  then mret job_info_lists
  else list_append job_info_lists (job_info job_url (text job_response)).

(** Lines 29-89, one query. *)
Definition scrape_query (location : string) (start_index : Z)
    (query : string) (job_info_lists : value) : M value :=
  response ← get_url (job_list_url query location start_index);
  if negb (status_code response =? 200)
  then mret job_info_lists
  else
    let page_jobs := Soup.find_all "li" None (text response) in
    id_lists ← foldM collect_id page_jobs [];
    foldM scrape_job id_lists job_info_lists.

Definition scrape_linkedin_jobs (queries : list string) (location : string)
    (start_index : Z) : M value :=
  job_info_lists ← load_jobs;
  job_info_lists ← foldM (scrape_query location start_index) queries job_info_lists;
  json_dump job_info_lists JOBS_FILE;;
  mret job_info_lists.

End Scraper.

(** ** [job_search_AI.py]: constants and structured-output classes *)

Definition MAX_SCRAPE : Z := 125.

Definition QUERY_MODEL_NAME : string := "qwen3:0.6b".
Definition RELEVANCE_MODEL_NAME : string := "qwen3:0.6b".
Definition SUMMARY_MODEL_NAME : string := "qwen3:0.6b".

Definition RESULT_FILE : string := "./offers/Jobs_relevant_.json".

Definition nl : string := String (ascii_of_N 10) EmptyString.

Definition user_profile : string :=
  nl ++ "I want a PhD in reproduction. " ++ nl
  ++ "I graduated with a Master's degree in Reproductive Biology and Physiology.  "
  ++ nl.

Definition keywords : list string :=
  [ "Behavior"; "behavioral reproduction"; "evolution"; "developmental biology";
    "Reproduction"; "fertility"; "breeding"; "reproductive"; "animal";
    "animal welfare"; "embryology"; "reproductive physiology"; "conservation";
    "ecophysiology"; "Cellular" ].

Definition excluded_keywords : list string :=
  [ "Molecular"; "Plant"; "Postdoctoral"; "internship"; "senior"; "workshop";
    "lab technician"; "lecturer"; "Computational Biology"; "Bioinformatics" ].

Record QueryOutput : Type := { location : string; queries : list string }.

Record RelevanceResult : Type :=
  { relevant : bool; explanation : string; confidence : float }.

Record JobSummary : Type :=
  { key_requirements : list string; role_details : list string }.

(** *** Validation against the three classes

    Every field is required and further keys are ignored.  A field
    annotated [str] or [List[str]] takes a JSON string or an array of
    strings and nothing else.  A field annotated [bool] takes a JSON
    boolean as it is, and one annotated [float] a JSON float as it is;
    what becomes of the other JSON values in those two fields is pydantic's
    lax conversion, [lax_bool] and [lax_float]. *)

Definition as_bool {P : Platform} (v : value) : option bool :=
  match v with VBool b => Some b | _ => lax_bool v end.

Definition as_str (v : value) : option string :=
  match v with VStr s => Some s | _ => None end.

Definition as_float {P : Platform} (v : value) : option float :=
  match v with VFloat x => Some x | _ => lax_float v end.

Definition as_str_list (v : value) : option (list string) :=
  match v with VList l => mapM as_str l | _ => None end.

Definition field {A} (k : string) (conv : value -> option A)
    (d : list (string * value)) : option A :=
  Dict.get k d ≫= conv.

Definition QueryOutput_validate (v : value) : option QueryOutput :=
  match v with
  | VDict d =>
      l ← field "location" as_str d;
      q ← field "queries" as_str_list d;
      Some {| location := l; queries := q |}
  | _ => None
  end.

Definition RelevanceResult_validate {P : Platform} (v : value)
  : option RelevanceResult :=
  match v with
  | VDict d =>
      r ← field "relevant" as_bool d;
      e ← field "explanation" as_str d;
      c ← field "confidence" as_float d;
      Some {| relevant := r; explanation := e; confidence := c |}
  | _ => None
  end.

Definition JobSummary_validate (v : value) : option JobSummary :=
  match v with
  | VDict d =>
      k ← field "key_requirements" as_str_list d;
      r ← field "role_details" as_str_list d;
      Some {| key_requirements := k; role_details := r |}
  | _ => None
  end.

(** [range(start, stop, step)] for a positive [step]. *)
Definition range (start stop step : Z) : list Z :=
  map (fun i => start + Z.of_nat i * step)
      (seq 0 (Z.to_nat ((stop - start + step - 1) / step))).

(** The two dictionaries written under ["summary"] and ["relevance"],
    lines 221-229. *)
Definition summary_dict (s : JobSummary) : value :=
  VDict (Dict.literal
    [ ("key_requirements", VList (map VStr (key_requirements s)));
      ("role_details", VList (map VStr (role_details s))) ]).

Definition relevance_dict (r : RelevanceResult) : value :=
  VDict (Dict.literal
    [ ("relevant", VBool (relevant r));
      ("confidence", VFloat (confidence r));
      ("explanation", VStr (explanation r)) ]).

(** Lines 219-230: [{**job_data, "summary": ..., "relevance": ...}]. *)
Definition enriched_job (job_data : list (string * value))
    (s : JobSummary) (r : RelevanceResult) : value :=
  VDict (Dict.set "relevance" (relevance_dict r)
          (Dict.set "summary" (summary_dict s) job_data)).

(** The three calls of [ollama.chat]: model, messages and [format]. *)
Definition query_request (user_profile : string)
    (keywords excluded_keywords : list string) : ChatRequest :=
  {| model := QUERY_MODEL_NAME;
     messages :=
       [ ("user", query_prompt user_profile (PyStr.join ", " keywords)
                    (PyStr.join ", " excluded_keywords)) ];
     format := QueryOutput_schema |}.

Definition relevance_request (user_profile : string)
    (keywords excluded_keywords : list string) (title summary : value)
  : ChatRequest :=
  {| model := RELEVANCE_MODEL_NAME;
     messages :=
       [ ("user", relevance_prompt user_profile (PyStr.join ", " keywords)
                    (PyStr.join ", " excluded_keywords) title summary) ];
     format := RelevanceResult_schema |}.

Definition summary_request (title description criteria : value) : ChatRequest :=
  {| model := SUMMARY_MODEL_NAME;
     messages :=
       [ ("system", summary_system);
         ("user", job_text title description criteria) ];
     format := JobSummary_schema |}.

Section Pipeline.
Context {P : Platform}.

(** [Cls.model_validate_json(content)] *)
Definition model_validate_json {A} (validate : value -> option A)
    (content : Text) : M A :=
  match json_loads content ≫= validate with
  | Some a => mret a
  | None => raise ValidationError
  end.

(** [job[k]] *)
Definition getitem (job : value) (k : string) : M value :=
  match job with
  | VDict d =>
      match Dict.get k d with
      | Some v => mret v
      | None => raise (KeyError k)
      end
  | _ => raise TypeError
  end.

(** [{**job_data}] *)
Definition unpack (job_data : value) : M (list (string * value)) :=
  match job_data with
  | VDict d => mret d
  | _ => raise TypeError
  end.

(** [for x in v] *)
Definition iterate (v : value) : M (list value) :=
  match v with
  | VList l => mret l
  | VDict d => mret (map VStr (Dict.keys d))
  | VStr s => mret (map (fun c => VStr (String c EmptyString)) (list_ascii_of_string s))
  | _ => raise TypeError
  end.

(** Step 1, lines 71-112. *)
Definition generate_queries (user_profile : string)
    (keywords excluded_keywords : list string) : M QueryOutput :=
  content ← chat (query_request user_profile keywords excluded_keywords);
  model_validate_json QueryOutput_validate content.

(** Step 2, lines 116-118. *)
Definition get_job_offers (queries : list string) (location : string) : M unit :=
  foldM (fun i (_ : unit) => scrape_linkedin_jobs queries location i;; mret tt)
        (range 0 MAX_SCRAPE 25) tt.

(** Step 3, lines 122-160. *)
Definition is_job_relevant (job : value) (user_profile : string)
    (keywords excluded_keywords : list string) : M RelevanceResult :=
  title ← getitem job "title";
  summary ← getitem job "summary";
  content ← chat
    (relevance_request user_profile keywords excluded_keywords title summary);
  model_validate_json RelevanceResult_validate content.

(** Step 4, lines 164-185. *)
Definition get_summary (job : value) : M JobSummary :=
  title ← getitem job "title";
  description ← getitem job "description";
  criteria ← getitem job "criteria";
  content ← chat (summary_request title description criteria);
  model_validate_json JobSummary_validate content.

(** Lines 207-234: the body of the loop over the stored jobs. *)
Definition enrich (job_data : value) (jobs_summary : list value) : M (list value) :=
  summary ← get_summary job_data;
  d ← unpack job_data;
  relevance_result ← is_job_relevant
    (VDict (Dict.set "summary" (summary_dict summary) d))
    user_profile keywords excluded_keywords;
  let jobs_summary := jobs_summary ++ [enriched_job d summary relevance_result] in
  json_dump (VList jobs_summary) RESULT_FILE;;
  mret jobs_summary.

(** Lines 204-234. *)
Definition enrich_all (job_info_lists : list value) : M (list value) :=
  foldM enrich job_info_lists [].

(** Lines 189-234. *)
Definition main : M (list value) :=
  queries_data ← generate_queries user_profile keywords excluded_keywords;
  get_job_offers (queries queries_data) (location queries_data);;
  job_info_lists ← json_load JOBS_FILE;
  jobs ← iterate job_info_lists;
  enrich_all jobs.

End Pipeline.

(** ** A small concrete platform

    Used to run the definitions above on explicit inputs: a site with one
    listing page and two postings, a model that replays scripted answers,
    and texts that are either a JSON document or garbage. *)

Module Demo.

Inductive body : Type :=
| Doc (v : value)
| Garbage          (* text that is not JSON *)
| NotUtf8.         (* bytes that are not text *)

Definition loads (t : body) : option value :=
  match t with Doc v => Some v | Garbage | NotUtf8 => None end.

Definition error_of (t : body) : Exn :=
  match t with NotUtf8 => UnicodeDecodeError | _ => JSONDecodeError end.

(** A few of pydantic's conversions. *)
Definition to_bool (v : value) : option bool :=
  match v with
  | VInt 1 => Some true
  | VInt 0 => Some false
  | VStr s =>
      if String.eqb s "yes" then Some true
      else if String.eqb s "no" then Some false
      else None
  | _ => None
  end.

Definition to_float (v : value) : option float :=
  match v with
  | VInt 1 => Some 1%float
  | VInt 0 => Some 0%float
  | VStr s => if String.eqb s "0.5" then Some 0.5%float else None
  | _ => None
  end.

Definition listing_page : list Node :=
  [ Tag "ul" []
      [ Tag "li" []
          [ Tag "div" [("class", "base-card relative");
                       ("data-entity-urn", "urn:li:jobPosting:1001")] [] ];
        Tag "li" [] [ NavigableString "Sign in to see more" ];
        Tag "li" []
          [ Tag "div" [("class", "base-card");
                       ("data-entity-urn", "urn:li:jobPosting:1002")] [] ] ] ].

Definition detail_1001 : list Node :=
  [ Tag "section" [("class", "top-card-layout")]
      [ Tag "h2" [("class", "top-card-layout__title topcard__title")]
          [ NavigableString
              (PyStr.of_bytes [194; 160]%N
               ++ "  PhD position in reproductive biology "
               ++ PyStr.of_bytes [226; 128; 137]%N)%string ];
        Tag "a" [("class", "topcard__org-name-link");
                 ("href", "https://example.org/university")]
          [ NavigableString " University " ];
        Tag "span" [("class", "posted-time-ago__text")]
          [ NavigableString "2 days ago" ];
        Tag "span" [("class", "num-applicants__caption")]
          [ NavigableString "25 applicants" ] ];
    Tag "div" [("class", "show-more-less-html__markup")]
      [ OtherString Comment " tracking ";
        NavigableString "Study of fertility.";
        Tag "script" [] [ OtherString Script "var seen = 1;" ];
        Tag "b" [] [ NavigableString " Apply now. " ] ] ].

(** A posting whose organisation link carries no [href]. *)
Definition detail_1002 : list Node :=
  [ Tag "h2" [("class", "top-card-layout__title")]
      [ NavigableString "Research assistant, embryology" ];
    Tag "a" [("class", "topcard__org-name-link")]
      [ NavigableString "Institute" ] ].

Definition site (url : string) : Response :=
  if String.eqb url (job_list_url "PhD Reproduction" "Worldwide" 0)
  then {| status_code := 200; text := listing_page |}
  else if String.eqb url (job_url_of "1001")
  then {| status_code := 200; text := detail_1001 |}
  else if String.eqb url (job_url_of "1002")
  then {| status_code := 200; text := detail_1002 |}
  else {| status_code := 404; text := [] |}.

(** The world is the list of answers the model has yet to give. *)
Definition platform : Platform :=
  {| Text := body;
     World := list body;
     json_dumps := Doc;
     json_loads := loads;
     load_error := error_of;
     lax_bool := to_bool;
     lax_float := to_float;
     requests_get := fun url w => (site url, w);
     ollama_chat := fun _ w =>
       match w with
       | [] => (Garbage, [])
       | t :: w' => (t, w')
       end |}.

Definition state (answers : list body) (fs : gmap string body) : @State platform :=
  {| world := answers : @World platform; files := fs : gmap string (@Text platform) |}.

Definition demo_queries : list string := ["PhD Reproduction"; "fertility research"].

Definition plan_answer : body :=
  Doc (VDict [ ("location", VStr "Worldwide");
               ("queries", VList (map VStr demo_queries)) ]).

Definition summary_answer : body :=
  Doc (VDict [ ("key_requirements", VList [VStr "MSc in biology"]);
               ("role_details", VList [VStr "Research on fertility"]) ]).

Definition relevance_answer : body :=
  Doc (VDict [ ("relevant", VBool true);
               ("explanation", VStr "Same field and level.");
               ("confidence", VFloat 0.75) ]).

(** A verdict the model may give: well-typed, with a confidence of 7.5. *)
Definition overconfident : value :=
  VDict [ ("relevant", VBool true);
          ("explanation", VStr "Certain.");
          ("confidence", VFloat 7.5) ].

Definition job_1001 : value := job_info (job_url_of "1001") detail_1001.
Definition job_1002 : value := job_info (job_url_of "1002") detail_1002.

Definition fields_of (v : value) : list (string * value) :=
  match v with VDict d => d | _ => [] end.

(** What [summary_answer] and [relevance_answer] validate to. *)
Definition demo_summary : JobSummary :=
  {| key_requirements := ["MSc in biology"];
     role_details := ["Research on fertility"] |}.

Definition demo_verdict : RelevanceResult :=
  {| relevant := true;
     explanation := "Same field and level.";
     confidence := 0.75 |}.

Definition entry_1001 : value :=
  enriched_job (fields_of job_1001) demo_summary demo_verdict.
Definition entry_1002 : value :=
  enriched_job (fields_of job_1002) demo_summary demo_verdict.

(** The file system with one file. *)
Definition one_file (path : string) (t : body) : gmap string body :=
  <[path := t]> ∅.

End Demo.

(** ** A site with a faulty listing

    The same platform with another site: its one listing page has a card
    that carries no [data-entity-urn] after a card that does. *)

Module Faulty.

Definition listing_page : list Node :=
  [ Tag "li" []
      [ Tag "div" [("class", "base-card");
                   ("data-entity-urn", "urn:li:jobPosting:1001")] [] ];
    Tag "li" [] [ Tag "div" [("class", "base-card")] [] ] ].

Definition site (url : string) : Response :=
  if String.eqb url (job_list_url "PhD Reproduction" "Worldwide" 0)
  then {| status_code := 200; text := listing_page |}
  else if String.eqb url (job_url_of "1001")
  then {| status_code := 200; text := Demo.detail_1001 |}
  else {| status_code := 404; text := [] |}.

Definition platform : Platform :=
  {| Text := Demo.body;
     World := list Demo.body;
     json_dumps := Demo.Doc;
     json_loads := Demo.loads;
     load_error := Demo.error_of;
     lax_bool := Demo.to_bool;
     lax_float := Demo.to_float;
     requests_get := fun url w => (site url, w);
     ollama_chat := fun _ w =>
       match w with
       | [] => (Demo.Garbage, [])
       | t :: w' => (t, w')
       end |}.

Definition state (answers : list Demo.body) (fs : gmap string Demo.body)
  : @State platform :=
  {| world := answers : @World platform;
     files := fs : gmap string (@Text platform) |}.

End Faulty.

(** ** Predicates used to state the properties *)

Module Soup_spec.

(** Some node of the document is a [name] element of class [cls]. *)
Definition present (name cls : string) (doc : list Node) : bool :=
  existsb (Soup.matches name (Some cls)) (Soup.all_nodes doc).

End Soup_spec.

(** What [safe_text(job_soup.find(name, class_=cls))] must be: the sentinel
    when no such element is in the page, the stripped text of the first
    one otherwise. *)
Definition text_field (name cls : string) (job_soup : list Node) (v : value) : Prop :=
  (Soup_spec.present name cls job_soup = false -> v = VStr UNKNOWN)
  /\ (Soup_spec.present name cls job_soup = true ->
      exists t, Soup.find name (Some cls) job_soup = Some t
                /\ v = VStr (PyStr.strip (Soup.get_text t))).

(** A dictionary the scraper builds for some identifier and some page. *)
Definition scraped_record (r : value) : Prop :=
  exists job_id job_soup, r = job_info (job_url_of job_id) job_soup.


Definition store_absent_or_empty {P : Platform} (st : State) : Prop :=
  files st !! JOBS_FILE = None
  \/ exists t, files st !! JOBS_FILE = Some t /\ json_loads t = Some (VList []).

(** A computation that leaves the files as they are, whatever it returns. *)
Definition keeps_files {P : Platform} {A} (m : M A) : Prop :=
  forall st r st', m st = (r, st') -> files st' = files st.

(** A computation that leaves the whole state as it is. *)
Definition keeps_state {P : Platform} {A} (m : M A) : Prop :=
  forall st r st', m st = (r, st') -> st' = st.

(** A step that, run on a list, returns that list with some records added
    at its end, the same records whatever the list was; every added record
    satisfies [Q]. *)
Definition appends {P : Platform} (Q : value -> Prop) (m : value -> M value) : Prop :=
  forall old st v st',
    m (VList old) st = (Ok v, st') ->
    exists new,
      v = VList (old ++ new)
      /\ Forall Q new
      /\ forall old', m (VList old') st = (Ok (VList (old' ++ new)), st').

(** The [url] of a record is the detail address of some identifier. *)
Definition url_of_posting (r : value) : Prop :=
  exists job_id d,
    r = VDict d
    /\ Dict.get "url" d = Some (VStr (JOB_POSTING ++ job_id))
    /\ Dict.get "url" d <> Some (VStr UNKNOWN).

(** [e] is the stored job [job] with a summary and a verdict added. *)
Definition enrichment_of (job e : value) : Prop :=
  exists d s r, job = VDict d /\ e = enriched_job d s r.

(** The outcome of [Cls.model_validate_json(content)]. *)
Definition validated {P : Platform} {A} (validate : value -> option A)
    (content : Text) : Result A :=
  match json_loads content ≫= validate with
  | Some a => Ok a
  | None => Raise ValidationError
  end.

(** [e] is the entry of the stored job [job]: the job with, under
    ["summary"], the validated answer of the model to the summary request
    for the job's title, description and criteria, and, under
    ["relevance"], the validated answer to the relevance request for the
    title and that summary. *)
Definition entry_of {P : Platform} (job e : value) : Prop :=
  exists d title description criteria w content1 w1 s content2 w2 r,
    job = VDict d
    /\ Dict.get "title" d = Some title
    /\ Dict.get "description" d = Some description
    /\ Dict.get "criteria" d = Some criteria
    /\ ollama_chat (summary_request title description criteria) w
       = (content1, w1)
    /\ json_loads content1 ≫= JobSummary_validate = Some s
    /\ ollama_chat
         (relevance_request user_profile keywords excluded_keywords
            title (summary_dict s)) w1 = (content2, w2)
    /\ json_loads content2 ≫= RelevanceResult_validate = Some r
    /\ e = enriched_job d s r.

(** [0 <= x <= 1] on a confidence. *)
Definition in_unit_interval (x : float) : Prop :=
  PrimFloat.leb 0 x = true /\ PrimFloat.leb x 1 = true.

(** The bytes of a string. *)
Definition chars (s : string) : list ascii := list_ascii_of_string s.

(** A string whose first and last characters are not white space. *)
Definition trimmed (s : string) : Prop :=
  (forall ch, head (PyStr.code_points s) = Some ch -> PyStr.isspace ch = false)
  /\ (forall ch, last (PyStr.code_points s) = Some ch -> PyStr.isspace ch = false).

(** A byte followed by continuation bytes only. *)
Fixpoint all_continuation (s : string) : bool :=
  match s with
  | EmptyString => true
  | String c s' => PyStr.is_continuation c && all_continuation s'
  end.

Definition is_group (g : string) : bool :=
  match g with
  | EmptyString => false
  | String _ t => all_continuation t
  end.

(** A list of characters as [PyStr.code_points] yields them: every one but
    the first begins with a byte that starts a code point. *)
Definition well_grouped (l : list string) : Prop :=
  Forall (fun g => is_group g = true) l
  /\ Forall (fun g => PyStr.starts_with_continuation g = false) (tail l).

(** The identifier a list item contributes, if any. *)
Definition item_id (job : Node) : option string :=
  match job_id_of job with
  | Ok o => o
  | Raise _ => None
  end.

(** A Python list, as opposed to any other value. *)
Definition is_list (v : value) : bool :=
  match v with VList _ => true | _ => false end.

(** A computation that leaves the file at [path] as it is, whatever it
    returns. *)
Definition keeps_file {P : Platform} {A} (path : string) (m : M A) : Prop :=
  forall st r st', m st = (r, st') -> files st' !! path = files st !! path.

(** * Properties *)

(** ** Dictionaries *)

Lemma dict_get_set_eq {V} (k : string) (v : V) d :
  Dict.get k (Dict.set k v d) = Some v.
Proof.
  induction d as [|[k' v'] d IH]; simpl.
  - by rewrite String.eqb_refl.
  - destruct (String.eqb k k') eqn:E; simpl.
    + by rewrite String.eqb_refl.
    + by rewrite E.
Qed.

Lemma dict_get_set_ne {V} (k k' : string) (v : V) d :
  k <> k' -> Dict.get k' (Dict.set k v d) = Dict.get k' d.
Proof.
  intros Hne. induction d as [|[k0 v0] d IH]; simpl.
  - destruct (String.eqb k' k) eqn:E; [|done].
    apply String.eqb_eq in E. congruence.
  - destruct (String.eqb k k0) eqn:E; simpl.
    + apply String.eqb_eq in E. subst k0.
      destruct (String.eqb k' k) eqn:E'; [|done].
      apply String.eqb_eq in E'. congruence.
    + by rewrite IH.
Qed.

Lemma dict_set_fresh {V} (k : string) (v : V) d :
  Dict.get k d = None -> Dict.set k v d = d ++ [(k, v)].
Proof.
  induction d as [|[k' v'] d IH]; simpl; [done|].
  destruct (String.eqb k k'); [done|]. intros H. by rewrite IH.
Qed.

Lemma dict_get_app_fresh {V} (k : string) (d d' : list (string * V)) :
  Dict.get k d = None -> Dict.get k (d ++ d') = Dict.get k d'.
Proof.
  induction d as [|[k' v'] d IH]; simpl; [done|].
  destruct (String.eqb k k'); [done|]. apply IH.
Qed.

(** ** Searching a document *)

Lemma find_in_None name cls nodes :
  Soup.find_in name cls nodes = None <-> existsb (Soup.matches name cls) nodes = false.
Proof.
  unfold Soup.find_in, Soup.find_all_in.
  induction nodes as [|n ns IH]; simpl; [done|].
  destruct (Soup.matches name cls n); simpl; [split; discriminate | apply IH].
Qed.

Lemma find_in_Some name cls nodes t :
  Soup.find_in name cls nodes = Some t ->
  In t nodes /\ Soup.matches name cls t = true.
Proof.
  unfold Soup.find_in, Soup.find_all_in.
  induction nodes as [|n ns IH]; simpl; [done|].
  destruct (Soup.matches name cls n) eqn:E; simpl.
  - intros [= <-]. auto.
  - intros H. destruct (IH H). auto.
Qed.

Lemma find_present name cls doc :
  Soup_spec.present name cls doc = true ->
  exists t, Soup.find name (Some cls) doc = Some t.
Proof.
  unfold Soup_spec.present, Soup.find. intros H.
  destruct (Soup.find_in name (Some cls) (Soup.all_nodes doc)) as [t|] eqn:E; [eauto|].
  apply find_in_None in E. congruence.
Qed.

Lemma find_absent name cls doc :
  Soup_spec.present name cls doc = false ->
  Soup.find name (Some cls) doc = None.
Proof. intros H. by apply find_in_None. Qed.

Lemma safe_text_field name cls job_soup :
  text_field name cls job_soup (safe_text (Soup.find name (Some cls) job_soup)).
Proof.
  split; intros H.
  - by rewrite (find_absent _ _ _ H).
  - destruct (find_present _ _ _ H) as [t Ht]. exists t. by rewrite Ht.
Qed.

(** ** The record built for one detail page *)

Lemma job_info_literal job_url job_soup :
  job_info job_url job_soup =
  VDict
    [ ("title", safe_text (Soup.find "h2" (Some "top-card-layout__title") job_soup));
      ("organisation_name",
        safe_text (Soup.find "a" (Some "topcard__org-name-link") job_soup));
      ("organisation_url",
        match Soup.find "a" (Some "topcard__org-name-link") job_soup with
        | Some t => href_of t
        | None => VStr UNKNOWN
        end);
      ("description",
        safe_text (Soup.find "div" (Some "show-more-less-html__markup") job_soup));
      ("criteria",
        safe_text (Soup.find "ul" (Some "description__job-criteria-list") job_soup));
      ("url", VStr job_url);
      ("posted_time",
        safe_text (Soup.find "span" (Some "posted-time-ago__text") job_soup));
      ("applicants",
        safe_text
          (or_else (Soup.find "figcaption" (Some "num-applicants__caption") job_soup)
                   (Soup.find "span" (Some "num-applicants__caption") job_soup))) ].
Proof. reflexivity. Qed.

Lemma job_posting_not_unknown job_id : job_url_of job_id <> UNKNOWN.
Proof. unfold job_url_of, JOB_POSTING, UNKNOWN. simpl. discriminate. Qed.

(** C2 (as amended).  The record of a fetched detail page has exactly the
    eight keys, in the order of the source.  [title], [organisation_name],
    [description], [criteria] and [posted_time] are the stripped text of
    the first matching element when the page has one and ["Unknown"] when
    it has none; [applicants] is read in the same way from the
    [figcaption] shape when that is present and from the [span] shape
    otherwise; [organisation_url] is ["Unknown"] when the organisation link
    is absent and the link's [href] when the link has one; [url] is the
    address the page was fetched from, whatever the page holds. *)
Theorem job_info_fields (job_url : string) (job_soup : list Node) :
  exists title organisation_name organisation_url description criteria
         posted_time applicants : value,
    job_info job_url job_soup =
      VDict [ ("title", title);
              ("organisation_name", organisation_name);
              ("organisation_url", organisation_url);
              ("description", description);
              ("criteria", criteria);
              ("url", VStr job_url);
              ("posted_time", posted_time);
              ("applicants", applicants) ]
    /\ text_field "h2" "top-card-layout__title" job_soup title
    /\ text_field "a" "topcard__org-name-link" job_soup organisation_name
    /\ (Soup_spec.present "a" "topcard__org-name-link" job_soup = false ->
        organisation_url = VStr UNKNOWN)
    /\ (forall t h,
          Soup.find "a" (Some "topcard__org-name-link") job_soup = Some t ->
          Soup.get "href" t = Some h ->
          organisation_url = VStr h)
    /\ text_field "div" "show-more-less-html__markup" job_soup description
    /\ text_field "ul" "description__job-criteria-list" job_soup criteria
    /\ text_field "span" "posted-time-ago__text" job_soup posted_time
    /\ (Soup_spec.present "figcaption" "num-applicants__caption" job_soup = true ->
        text_field "figcaption" "num-applicants__caption" job_soup applicants)
    /\ (Soup_spec.present "figcaption" "num-applicants__caption" job_soup = false ->
        text_field "span" "num-applicants__caption" job_soup applicants).
Proof.
  do 7 eexists. split; [apply job_info_literal|].
  repeat match goal with |- _ /\ _ => split end;
    try apply safe_text_field.
  - intros H. by rewrite (find_absent _ _ _ H).
  - intros t h Ht Hh. rewrite Ht. unfold href_of. by rewrite Hh.
  - intros H. destruct (find_present _ _ _ H) as [t Ht].
    pose proof (safe_text_field "figcaption" "num-applicants__caption" job_soup) as F.
    rewrite Ht in F |- *. exact F.
  - intros H. rewrite (find_absent _ _ _ H). apply safe_text_field.
Qed.

(** C2 (as stated) fails.  On a page whose organisation link has no [href]
    the link is present, yet [organisation_url] is [None], that is JSON
    [null]; and [url] is not the sentinel although the page has no element
    it could have been read from. *)
Lemma job_info_null_field :
  exists d,
    job_info (job_url_of "1002") Demo.detail_1002 = VDict d
    /\ Soup_spec.present "a" "topcard__org-name-link" Demo.detail_1002 = true
    /\ Dict.get "organisation_url" d = Some VNone
    /\ Dict.get "url" d = Some (VStr (job_url_of "1002"))
    /\ Dict.get "url" d <> Some (VStr UNKNOWN).
Proof.
  eexists. split; [apply job_info_literal|].
  repeat split; try reflexivity. discriminate.
Qed.

(** ** [range] *)

Lemma range_spec (start stop step x : Z) :
  0 < step ->
  In x (range start stop step) <->
  start <= x < stop /\ (x - start) mod step = 0.
Proof.
  intros Hstep. unfold range. rewrite in_map_iff. split.
  - intros (k & <- & Hk). apply in_seq in Hk.
    assert (Hq : Z.of_nat k < (stop - start + step - 1) / step) by lia.
    pose proof (Z.mul_div_le (stop - start + step - 1) step Hstep).
    split; [nia|].
    replace (start + Z.of_nat k * step - start) with (Z.of_nat k * step) by lia.
    apply Z.mod_mul. lia.
  - intros ([Hlo Hhi] & Hmod).
    apply Z.mod_divide in Hmod; [|lia]. destruct Hmod as [m Hm].
    assert (0 <= m) by nia.
    exists (Z.to_nat m). split; [lia|].
    apply in_seq. split; [lia|]. simpl.
    assert (m + 1 <= (stop - start + step - 1) / step).
    { apply Z.div_le_lower_bound; [lia|]. nia. }
    lia.
Qed.

(** ** Running computations *)

Section Run.
Context {P : Platform}.

Lemma bind_run {A B} (m : M A) (f : A -> M B) (st : State) :
  (m ≫= f) st =
  match m st with
  | (Ok a, st') => f a st'
  | (Raise e, st') => (Raise e, st')
  end.
Proof. reflexivity. Qed.

Lemma ret_run {A} (a : A) (st : State) : (mret a : M A) st = (Ok a, st).
Proof. reflexivity. Qed.

Lemma chat_run req (st : State) :
  chat req st =
  let '(t, w) := ollama_chat req (world st) in
  (Ok t, {| world := w; files := files st |}).
Proof. reflexivity. Qed.

Lemma bind_ok {A B} (m : M A) (f : A -> M B) st a st1 :
  m st = (Ok a, st1) -> (m ≫= f) st = f a st1.
Proof. intros H. by rewrite bind_run, H. Qed.

Lemma bind_raise {A B} (m : M A) (f : A -> M B) st e st1 :
  m st = (Raise e, st1) -> (m ≫= f) st = (Raise e, st1).
Proof. intros H. by rewrite bind_run, H. Qed.

Lemma seq_unit {A B} (m : M A) (k : M B) (st : State) :
  ((m;; mret tt) ≫= fun _ : unit => k) st = (m;; k) st.
Proof. rewrite !bind_run. by destruct (m st) as [[a|e] st1]. Qed.

(** A loop over [xs ++ ys] is the loop over [xs] followed by the loop over
    [ys] from where the first one stopped. *)
Lemma foldM_app {A S} (body : A -> S -> M S) xs ys s st :
  foldM body (xs ++ ys) s st = (foldM body xs s ≫= foldM body ys) st.
Proof.
  revert s st. induction xs as [|x xs IH]; intros s st; [done|].
  simpl. rewrite !bind_run.
  destruct (body x s st) as [[s1|e] st1]; [|done].
  rewrite IH. by rewrite bind_run.
Qed.

(** An exception leaves a loop at once. *)
Lemma foldM_raise {A S} (body : A -> S -> M S) x xs s st e st' :
  body x s st = (Raise e, st') -> foldM body (x :: xs) s st = (Raise e, st').
Proof. intros H. simpl. by apply bind_raise. Qed.

(** *** Computations that do not write *)

Lemma keeps_files_ret {A} (a : A) : keeps_files (mret a).
Proof. by intros st r st' [= _ <-]. Qed.

Lemma keeps_files_raise {A} e : keeps_files (@raise P A e).
Proof. by intros st r st' [= _ <-]. Qed.

Lemma keeps_files_lift {A} (r : Result A) : keeps_files (lift r).
Proof. by intros st r' st' [= _ <-]. Qed.

Lemma keeps_files_bind {A B} (m : M A) (f : A -> M B) :
  keeps_files m -> (forall a, keeps_files (f a)) -> keeps_files (m ≫= f).
Proof.
  intros Hm Hf st r st'. rewrite bind_run.
  destruct (m st) as [[a|e] st1] eqn:E.
  - intros H. rewrite (Hf _ _ _ _ H). eauto.
  - intros [= _ <-]. eauto.
Qed.

Lemma keeps_files_foldM {A S} (body : A -> S -> M S) xs s :
  (forall x s, keeps_files (body x s)) -> keeps_files (foldM body xs s).
Proof.
  intros Hb. revert s. induction xs as [|x xs IH]; intros s; simpl.
  - apply keeps_files_ret.
  - apply keeps_files_bind; auto.
Qed.

Lemma keeps_files_get_url url : keeps_files (get_url url).
Proof.
  intros st r st'. unfold get_url.
  destruct (requests_get url (world st)). by intros [= _ <-].
Qed.

Lemma keeps_files_chat req : keeps_files (chat req).
Proof.
  intros st r st'. unfold chat.
  destruct (ollama_chat req (world st)). by intros [= _ <-].
Qed.

Lemma keeps_files_getitem job k : keeps_files (getitem job k).
Proof.
  destruct job; try apply keeps_files_raise. simpl.
  destruct (Dict.get k d); [apply keeps_files_ret | apply keeps_files_raise].
Qed.

Lemma keeps_files_unpack job : keeps_files (unpack job).
Proof. destruct job; first [apply keeps_files_raise | apply keeps_files_ret]. Qed.

Lemma keeps_files_validate {A} (validate : value -> option A) content :
  keeps_files (model_validate_json validate content).
Proof.
  unfold model_validate_json.
  destruct (json_loads content ≫= validate);
    [apply keeps_files_ret | apply keeps_files_raise].
Qed.

Lemma keeps_files_list_append l x : keeps_files (list_append l x).
Proof. destruct l; first [apply keeps_files_raise | apply keeps_files_ret]. Qed.

Lemma keeps_files_get_summary job : keeps_files (get_summary job).
Proof.
  unfold get_summary.
  repeat (apply keeps_files_bind; [|intros ?]);
    auto using keeps_files_getitem, keeps_files_chat, keeps_files_validate.
Qed.

Lemma keeps_files_is_job_relevant job up kw ex :
  keeps_files (is_job_relevant job up kw ex).
Proof.
  unfold is_job_relevant.
  repeat (apply keeps_files_bind; [|intros ?]);
    auto using keeps_files_getitem, keeps_files_chat, keeps_files_validate.
Qed.

Lemma keeps_files_generate_queries up kw ex :
  keeps_files (generate_queries up kw ex).
Proof.
  unfold generate_queries.
  apply keeps_files_bind; [|intros ?];
    auto using keeps_files_chat, keeps_files_validate.
Qed.

Lemma keeps_files_collect_id job ids : keeps_files (collect_id job ids).
Proof.
  unfold collect_id. apply keeps_files_bind; [apply keeps_files_lift|].
  intros [?|]; apply keeps_files_ret.
Qed.

Lemma keeps_files_scrape_job job_id l : keeps_files (scrape_job job_id l).
Proof.
  unfold scrape_job. apply keeps_files_bind; [apply keeps_files_get_url|].
  intros r. destruct (negb _);
    [apply keeps_files_ret | apply keeps_files_list_append].
Qed.

Lemma keeps_files_scrape_query loc i q l : keeps_files (scrape_query loc i q l).
Proof.
  unfold scrape_query. apply keeps_files_bind; [apply keeps_files_get_url|].
  intros r. destruct (negb _); [apply keeps_files_ret|].
  apply keeps_files_bind.
  - apply keeps_files_foldM. intros; apply keeps_files_collect_id.
  - intros ids. apply keeps_files_foldM. intros; apply keeps_files_scrape_job.
Qed.

End Run.

(** ** The scraped-jobs store and the scraper *)

Section Store.
Context {P : Platform}.

Lemma path_exists_run path st :
  path_exists path st = (Ok (bool_decide (is_Some (files st !! path))), st).
Proof. reflexivity. Qed.

Lemma load_jobs_absent st :
  files st !! JOBS_FILE = None -> load_jobs st = (Ok (VList []), st).
Proof.
  intros H. unfold load_jobs. rewrite bind_run, path_exists_run, H.
  rewrite bool_decide_eq_false_2; [done|]. by intros [? ?].
Qed.

Lemma load_jobs_present st t :
  files st !! JOBS_FILE = Some t ->
  load_jobs st =
  (match json_loads t with
   | Some v => Ok v
   | None =>
       if is_JSONDecodeError (load_error t) then Ok (VList [])
       else Raise (load_error t)
   end, st).
Proof.
  intros H. unfold load_jobs. rewrite bind_run, path_exists_run, H.
  rewrite bool_decide_eq_true_2; [|by eexists].
  unfold try_except, json_load. rewrite bind_run. unfold read_text. rewrite H.
  destruct (json_loads t); [done|]. unfold raise.
  by destruct (is_JSONDecodeError (load_error t)).
Qed.

Lemma keeps_state_load_jobs : keeps_state load_jobs.
Proof.
  intros st r st'. destruct (files st !! JOBS_FILE) as [t|] eqn:E.
  - rewrite (load_jobs_present _ _ E). by intros [= _ <-].
  - rewrite (load_jobs_absent _ E). by intros [= _ <-].
Qed.


(** A file that cannot be loaded for another reason makes the load raise
    that exception. *)
Lemma load_jobs_unloadable st t :
  files st !! JOBS_FILE = Some t ->
  json_loads t = None ->
  load_error t <> JSONDecodeError ->
  load_jobs st = (Raise (load_error t), st).
Proof.
  intros H Ht He. rewrite (load_jobs_present _ _ H), Ht.
  by destruct (load_error t).
Qed.

(** Saving and loading again, given the contract of [json]. *)
Lemma load_after_dump (v : value) (st : State) :
  json_roundtrip P ->
  load_jobs {| world := world st; files := <[JOBS_FILE := json_dumps v]> (files st) |}
  = (Ok v, {| world := world st; files := <[JOBS_FILE := json_dumps v]> (files st) |}).
Proof.
  intros RT. erewrite load_jobs_present; [|simpl; apply lookup_insert_eq].
  by rewrite RT.
Qed.

(** *** Loops that append *)

Lemma appends_foldM {A} (Q : value -> Prop) (body : A -> value -> M value) xs :
  (forall x, appends Q (body x)) -> appends Q (foldM body xs).
Proof.
  intros Hb. induction xs as [|x xs IH]; intros old st v st' H.
  - injection H as <- <-. exists []. rewrite app_nil_r.
    repeat split; [constructor|]. intros old'. by rewrite app_nil_r.
  - simpl in H. rewrite bind_run in H.
    destruct (body x (VList old) st) as [[v1|e] st1] eqn:E; [|done].
    destruct (Hb _ _ _ _ _ E) as (new1 & -> & HQ1 & Hany1).
    destruct (IH _ _ _ _ H) as (new2 & -> & HQ2 & Hany2).
    exists (new1 ++ new2). rewrite app_assoc.
    repeat split; [by apply Forall_app|].
    intros old'. simpl. rewrite (bind_ok _ _ _ _ _ (Hany1 old')).
    rewrite Hany2. by rewrite app_assoc.
Qed.

Lemma scrape_job_run job_id old st :
  scrape_job job_id (VList old) st =
  let '(r, w) := requests_get (job_url_of job_id) (world st) in
  (Ok (VList (if negb (status_code r =? 200) then old
              else old ++ [job_info (job_url_of job_id) (text r)])),
   {| world := w; files := files st |}).
Proof.
  unfold scrape_job, get_url. rewrite bind_run.
  destruct (requests_get _ _) as [r w]. by destruct (negb _).
Qed.

Lemma appends_scrape_job job_id : appends scraped_record (scrape_job job_id).
Proof.
  intros old st v st'. rewrite scrape_job_run.
  destruct (requests_get _ _) as [r w] eqn:E. intros [= <- <-].
  exists (if negb (status_code r =? 200) then []
          else [job_info (job_url_of job_id) (text r)]).
  repeat split.
  - destruct (negb _); [by rewrite app_nil_r | done].
  - destruct (negb _); repeat constructor. by exists job_id, (text r).
  - intros old'. rewrite scrape_job_run, E.
    destruct (negb _); [by rewrite app_nil_r | done].
Qed.

Lemma collect_id_run job ids (st : State) :
  collect_id job ids st =
  (match job_id_of job with
   | Ok (Some job_id) => Ok (ids ++ [job_id])
   | Ok None => Ok ids
   | Raise e => Raise e
   end, st).
Proof.
  unfold collect_id, lift. rewrite bind_run.
  by destruct (job_id_of job) as [[job_id|]|e].
Qed.

(** Collecting the identifiers of a page touches nothing and does not
    depend on the state. *)
Lemma collect_ids_pure (page_jobs : list Node) (ids : list string) :
  exists r, forall st : State, foldM collect_id page_jobs ids st = (r, st).
Proof.
  revert ids. induction page_jobs as [|job jobs IH]; intros ids.
  - by exists (Ok ids).
  - destruct (job_id_of job) as [[job_id|]|e] eqn:E.
    + destruct (IH (ids ++ [job_id])) as [r Hr]. exists r. intros st.
      simpl. by rewrite bind_run, collect_id_run, E.
    + destruct (IH ids) as [r Hr]. exists r. intros st.
      simpl. by rewrite bind_run, collect_id_run, E.
    + exists (Raise e). intros st.
      simpl. by rewrite bind_run, collect_id_run, E.
Qed.

Lemma scrape_query_run loc i q jl st :
  scrape_query loc i q jl st =
  let '(r, w) := requests_get (job_list_url q loc i) (world st) in
  let st1 := {| world := w; files := files st |} in
  if negb (status_code r =? 200) then (Ok jl, st1)
  else (foldM collect_id (Soup.find_all "li" None (text r)) []
          ≫= fun id_lists => foldM scrape_job id_lists jl) st1.
Proof.
  unfold scrape_query, get_url. rewrite bind_run.
  destruct (requests_get _ _) as [r w]. by destruct (negb _).
Qed.

Lemma appends_scrape_query loc i q : appends scraped_record (scrape_query loc i q).
Proof.
  intros old st v st'. rewrite scrape_query_run.
  destruct (requests_get _ _) as [r w] eqn:E. cbv zeta.
  destruct (negb _) eqn:Hs.
  - intros [= <- <-]. exists []. rewrite app_nil_r.
    repeat split; [constructor|]. intros old'.
    by rewrite scrape_query_run, E, app_nil_r; cbv zeta; rewrite Hs.
  - destruct (collect_ids_pure (Soup.find_all "li" None (text r)) [])
      as [[ids|e] Hids]; rewrite bind_run, Hids; [|done].
    intros H.
    destruct (appends_foldM _ _ ids appends_scrape_job _ _ _ _ H)
      as (new & -> & HQ & Hany).
    exists new. repeat split; [done|]. intros old'.
    rewrite scrape_query_run, E; cbv zeta. by rewrite Hs, bind_run, Hids.
Qed.

Lemma appends_scrape_queries loc i qs :
  appends scraped_record (foldM (scrape_query loc i) qs).
Proof. apply appends_foldM. intros q. apply appends_scrape_query. Qed.

(** What a successful call of the scraper has done. *)
Lemma scrape_linkedin_jobs_ok qs loc i st v st' :
  scrape_linkedin_jobs qs loc i st = (Ok v, st') ->
  exists v0 st1,
    load_jobs st = (Ok v0, st)
    /\ foldM (scrape_query loc i) qs v0 st = (Ok v, st1)
    /\ files st1 = files st
    /\ st' = {| world := world st1;
               files := <[JOBS_FILE := json_dumps v]> (files st) |}.
Proof.
  unfold scrape_linkedin_jobs. rewrite bind_run.
  destruct (load_jobs st) as [[v0|e] st0] eqn:E0; [|done].
  pose proof (keeps_state_load_jobs _ _ _ E0) as ->.
  rewrite bind_run.
  destruct (foldM _ qs v0 st) as [[v1|e] st1] eqn:E1; [|done].
  assert (files st1 = files st) as Hf.
  { eapply keeps_files_foldM; [|exact E1].
    intros; apply keeps_files_scrape_query. }
  rewrite bind_run. unfold json_dump, write_text. intros [= <- <-].
  exists v0, st1. by rewrite Hf.
Qed.

End Store.

Section Scrape_properties.
Context {P : Platform}.

Lemma load_jobs_empty st :
  store_absent_or_empty st -> load_jobs st = (Ok (VList []), st).
Proof.
  intros [H | (t & H & Ht)].
  - by apply load_jobs_absent.
  - by rewrite (load_jobs_present _ _ H), Ht.
Qed.

Lemma foldM_list_append (records old : list value) (st : State) :
  foldM (fun r jl => list_append jl r) records (VList old) st
  = (Ok (VList (old ++ records)), st).
Proof.
  revert old. induction records as [|r rs IH]; intros old; simpl.
  - by rewrite app_nil_r.
  - rewrite bind_run. simpl. rewrite IH. by rewrite <- app_assoc.
Qed.

(** C4.  Given the contract of [json] (loading what was dumped gives the
    value back), start from a store that is absent or holds the empty
    list.  Loading it, appending any records one by one, saving and
    loading afresh returns exactly those records in their order.  The
    scraper is such a session: after a successful call, a fresh load
    returns exactly the records the call appended, in the order in which
    it appended them. *)
Theorem store_roundtrip (st : State) :
  json_roundtrip P ->
  store_absent_or_empty st ->
  (forall records : list value,
      (jl ← load_jobs;
       jl ← foldM (fun r jl => list_append jl r) records jl;
       json_dump jl JOBS_FILE;;
       load_jobs) st
      = (Ok (VList records),
         {| world := world st;
            files := <[JOBS_FILE := json_dumps (VList records)]> (files st) |}))
  /\ (forall queries location start_index v st',
        scrape_linkedin_jobs queries location start_index st = (Ok v, st') ->
        exists records : list value,
          (forall old,
              foldM (scrape_query location start_index) queries (VList old) st
              = (Ok (VList (old ++ records)),
                 {| world := world st'; files := files st |}))
          /\ v = VList records
          /\ files st' !! JOBS_FILE = Some (json_dumps (VList records))
          /\ load_jobs st' = (Ok (VList records), st')).
Proof.
  intros RT Hst. split.
  - intros records.
    rewrite (bind_ok _ _ _ _ _ (load_jobs_empty _ Hst)).
    rewrite (bind_ok _ _ _ _ _ (foldM_list_append records [] st)).
    simpl. rewrite bind_run. unfold json_dump, write_text.
    by rewrite load_after_dump.
  - intros qs loc i v st' H.
    destruct (scrape_linkedin_jobs_ok _ _ _ _ _ _ H) as (v0 & st1 & H0 & H1 & Hf & ->).
    rewrite (load_jobs_empty _ Hst) in H0. injection H0 as <-.
    destruct (appends_scrape_queries _ _ _ _ _ _ _ H1) as (new & -> & _ & Hany).
    exists new. simpl. repeat split.
    + intros old. rewrite Hany. destruct st1; simpl in *. by subst.
    + apply lookup_insert_eq.
    + by apply (load_after_dump (VList new)
                  {| world := world st1; files := files st |}).
Qed.

(** C5.  Let the loop over the queries have reached the query [q] (after
    the queries [qs1]) and let the listing endpoint answer [q] with a
    status other than 200.  Then [q] returns normally with the list of jobs
    unchanged, and the loop goes on with the remaining queries [qs2] from
    there. *)
Theorem failed_listing_is_skipped (qs1 : list string) (q : string)
    (qs2 : list string) (location : string) (start_index : Z)
    (jl : value) (st : State) (jl1 : value) (st1 : State)
    (r : Response) (w : World) :
  foldM (scrape_query location start_index) qs1 jl st = (Ok jl1, st1) ->
  requests_get (job_list_url q location start_index) (world st1) = (r, w) ->
  status_code r <> 200 ->
  scrape_query location start_index q jl1 st1
  = (Ok jl1, {| world := w; files := files st1 |})
  /\ foldM (scrape_query location start_index) (qs1 ++ q :: qs2) jl st
     = foldM (scrape_query location start_index) qs2 jl1
         {| world := w; files := files st1 |}.
Proof.
  intros H1 Hr Hs.
  assert (scrape_query location start_index q jl1 st1
          = (Ok jl1, {| world := w; files := files st1 |})) as Hq.
  { rewrite scrape_query_run, Hr. cbv zeta.
    apply Z.eqb_neq in Hs. by rewrite Hs. }
  split; [done|].
  rewrite foldM_app, (bind_ok _ _ _ _ _ H1). simpl.
  by rewrite (bind_ok _ _ _ _ _ Hq).
Qed.

Lemma scraped_record_url r : scraped_record r -> url_of_posting r.
Proof.
  intros (job_id & job_soup & ->). rewrite job_info_literal.
  eexists job_id, _. split; [reflexivity|]. split; [reflexivity|].
  simpl. intros [= E]; by apply (job_posting_not_unknown job_id).
Qed.

(** C10.  The record that the scraper appends for an identifier [job_id]
    has as [url] the detail address of [job_id], which is never the
    sentinel; hence every record appended by a call of the scraper has the
    detail address of some identifier as its [url]. *)
Theorem scraped_url_field :
  (forall job_id old (st : State) v st',
      scrape_job job_id (VList old) st = (Ok v, st') ->
      v = VList old
      \/ exists d,
           v = VList (old ++ [VDict d])
           /\ Dict.get "url" d = Some (VStr (JOB_POSTING ++ job_id))
           /\ Dict.get "url" d <> Some (VStr UNKNOWN))
  /\ (forall queries location start_index old (st : State) v st',
        load_jobs st = (Ok (VList old), st) ->
        scrape_linkedin_jobs queries location start_index st = (Ok v, st') ->
        exists new, v = VList (old ++ new) /\ Forall url_of_posting new).
Proof.
  split.
  - intros job_id old st v st'. rewrite scrape_job_run.
    destruct (requests_get _ _) as [r w]. intros [= <- <-].
    destruct (negb _); [by left | right].
    rewrite job_info_literal. eexists. split; [reflexivity|].
    split; [reflexivity|].
    simpl. intros [= E]; by apply (job_posting_not_unknown job_id).
  - intros qs loc i old st v st' Hl H.
    destruct (scrape_linkedin_jobs_ok _ _ _ _ _ _ H) as (v0 & st1 & H0 & H1 & _ & _).
    rewrite Hl in H0. injection H0 as <-.
    destruct (appends_scrape_queries _ _ _ _ _ _ _ H1) as (new & -> & HQ & _).
    exists new. split; [done|].
    eapply Forall_impl; [exact HQ|]. apply scraped_record_url.
Qed.

End Scrape_properties.

(** ** The enrichment loop *)

Section Enrich.
Context {P : Platform}.

(** What one successful iteration has done: one entry more, and the whole
    list written to the result file. *)
Lemma enrich_ok job acc st acc' st' :
  enrich job acc st = (Ok acc', st') ->
  exists d s r,
    job = VDict d
    /\ acc' = acc ++ [enriched_job d s r]
    /\ files st' = <[RESULT_FILE := json_dumps (VList acc')]> (files st).
Proof.
  unfold enrich. rewrite bind_run.
  destruct (get_summary job st) as [[s|e] st1] eqn:E1; [|done].
  apply keeps_files_get_summary in E1.
  rewrite bind_run. destruct job; try done. simpl.
  rewrite bind_run.
  destruct (is_job_relevant _ _ _ _ st1) as [[r|e] st2] eqn:E2; [|done].
  apply keeps_files_is_job_relevant in E2.
  rewrite bind_run. unfold json_dump, write_text. intros [= <- <-].
  exists d, s, r. simpl. by rewrite E2, E1.
Qed.

(** An iteration that raises has written nothing. *)
Lemma enrich_raise job acc st e st' :
  enrich job acc st = (Raise e, st') -> files st' = files st.
Proof.
  unfold enrich. rewrite bind_run.
  destruct (get_summary job st) as [[s|e1] st1] eqn:E1;
    apply keeps_files_get_summary in E1; [|by intros [= _ <-]].
  rewrite bind_run. destruct job; try by intros [= _ <-]. simpl.
  rewrite bind_run.
  destruct (is_job_relevant _ _ _ _ st1) as [[r|e2] st2] eqn:E2;
    apply keeps_files_is_job_relevant in E2; [|intros [= _ <-]; congruence].
  rewrite bind_run. unfold json_dump, write_text. discriminate.
Qed.

Lemma enrich_loop_ok jobs acc st acc' st' :
  foldM enrich jobs acc st = (Ok acc', st') ->
  exists es,
    acc' = acc ++ es
    /\ Forall2 enrichment_of jobs es
    /\ (jobs <> [] ->
        files st' !! RESULT_FILE = Some (json_dumps (VList acc')))
    /\ (jobs = [] -> st' = st).
Proof.
  revert acc st. induction jobs as [|job jobs IH]; intros acc st H.
  - injection H as <- <-. exists []. rewrite app_nil_r.
    repeat split; [constructor | done].
  - simpl in H. rewrite bind_run in H.
    destruct (enrich job acc st) as [[acc1|e] st1] eqn:E; [|done].
    destruct (enrich_ok _ _ _ _ _ E) as (d & s & r & -> & -> & Hf).
    destruct (IH _ _ H) as (es & -> & HF & Hne & Hnil).
    exists (enriched_job d s r :: es). rewrite <- app_assoc.
    repeat split; [| |done].
    + constructor; [by exists d, s, r | done].
    + intros _. destruct jobs as [|job' jobs].
      * rewrite (Hnil eq_refl). inversion HF; subst.
        rewrite Hf, app_nil_r. apply lookup_insert_eq.
      * rewrite <- app_assoc in Hne. by apply Hne.
Qed.

Lemma json_load_after_dump path v (st : State) :
  json_roundtrip P ->
  files st !! path = Some (json_dumps v) ->
  json_load path st = (Ok v, st).
Proof.
  intros RT H. unfold json_load, read_text. rewrite bind_run, H. by rewrite RT.
Qed.

(** C3.  Let the first [k] stored jobs ([1 <= k <= n]) have been processed,
    leaving the list [acc] and the state [st'].  Then [acc] holds exactly
    [k] entries, the enrichments of those [k] jobs in their order; the
    result file holds the dump of exactly that list (so that, under the
    contract of [json], loading it returns [acc]); and the rest of the run
    is the loop over the remaining jobs started from [acc] in [st']. *)
Theorem checkpoint_after_each_job (jobs : list value) (k : nat)
    (st : State) (acc : list value) (st' : State) :
  (1 <= k <= length jobs)%nat ->
  foldM enrich (take k jobs) [] st = (Ok acc, st') ->
  length acc = k
  /\ Forall2 enrichment_of (take k jobs) acc
  /\ files st' !! RESULT_FILE = Some (json_dumps (VList acc))
  /\ (json_roundtrip P -> json_load RESULT_FILE st' = (Ok (VList acc), st'))
  /\ enrich_all jobs st = foldM enrich (drop k jobs) acc st'.
Proof.
  intros Hk H.
  destruct (enrich_loop_ok _ _ _ _ _ H) as (es & -> & HF & Hne & _).
  simpl in *.
  assert (take k jobs <> []) as Hnonempty.
  { intros E. apply (f_equal length) in E. rewrite length_take in E.
    simpl in E. lia. }
  specialize (Hne Hnonempty).
  repeat split; [| done | done | |].
  - rewrite <- (Forall2_length _ _ _ HF), length_take. lia.
  - intros RT. by apply json_load_after_dump.
  - unfold enrich_all. rewrite <- (take_drop k jobs) at 1.
    by rewrite foldM_app, (bind_ok _ _ _ _ _ H).
Qed.

Lemma model_validate_json_run {A} (validate : value -> option A)
    (content : Text) (st : State) :
  model_validate_json validate content st = (validated validate content, st).
Proof.
  unfold model_validate_json, validated.
  by destruct (json_loads content ≫= validate).
Qed.

Lemma generate_queries_run up kw ex (st : State) :
  generate_queries up kw ex st =
  let '(content, w) := ollama_chat (query_request up kw ex) (world st) in
  (validated QueryOutput_validate content, {| world := w; files := files st |}).
Proof.
  unfold generate_queries. rewrite bind_run, chat_run.
  destruct (ollama_chat _ _) as [content w].
  by rewrite model_validate_json_run.
Qed.

Lemma get_summary_run d title description criteria (st : State) :
  Dict.get "title" d = Some title ->
  Dict.get "description" d = Some description ->
  Dict.get "criteria" d = Some criteria ->
  get_summary (VDict d) st =
  let '(content, w) :=
    ollama_chat (summary_request title description criteria) (world st) in
  (validated JobSummary_validate content, {| world := w; files := files st |}).
Proof.
  intros Ht Hd Hc. unfold get_summary, getitem. rewrite Ht, Hd, Hc.
  rewrite bind_run, ret_run, bind_run, ret_run, bind_run, ret_run.
  rewrite bind_run, chat_run.
  destruct (ollama_chat _ _) as [content w].
  by rewrite model_validate_json_run.
Qed.

Lemma is_job_relevant_run d title summary up kw ex (st : State) :
  Dict.get "title" d = Some title ->
  Dict.get "summary" d = Some summary ->
  is_job_relevant (VDict d) up kw ex st =
  let '(content, w) :=
    ollama_chat (relevance_request up kw ex title summary) (world st) in
  (validated RelevanceResult_validate content,
   {| world := w; files := files st |}).
Proof.
  intros Ht Hs. unfold is_job_relevant, getitem. rewrite Ht, Hs.
  rewrite bind_run, ret_run, bind_run, ret_run, bind_run, chat_run.
  destruct (ollama_chat _ _) as [content w].
  by rewrite model_validate_json_run.
Qed.

(** An exception of the summariser, or of the classifier after it, is the
    outcome of the iteration. *)
Lemma enrich_raise_summary job acc (st : State) e st1 :
  get_summary job st = (Raise e, st1) ->
  enrich job acc st = (Raise e, st1).
Proof. intros H. unfold enrich. by apply bind_raise. Qed.

Lemma enrich_raise_relevance d acc (st : State) s st1 e st2 :
  get_summary (VDict d) st = (Ok s, st1) ->
  is_job_relevant (VDict (Dict.set "summary" (summary_dict s) d))
    user_profile keywords excluded_keywords st1 = (Raise e, st2) ->
  enrich (VDict d) acc st = (Raise e, st2).
Proof.
  intros H1 H2. unfold enrich. rewrite (bind_ok _ _ _ _ _ H1).
  simpl. rewrite bind_run, ret_run. by apply bind_raise.
Qed.

(** C1 (as amended).  A structured output that fails validation ends the
    run, at every stage.  (1) When the plan fails validation, [main]
    raises [ValidationError] and no file has been touched.  (2) When the
    summary of a job fails validation, or (3) its summary passes and its
    verdict fails, the iteration raises [ValidationError] and has written
    nothing.  (4) An exception raised by the iteration for [job] ends the
    loop in the state reached at that point: the jobs after [job] are not
    processed, and the result file is as the last completed job left it,
    holding the entries of the jobs before [job]. *)
Theorem model_error_aborts_run :
  (forall (st : State) content w,
      ollama_chat (query_request user_profile keywords excluded_keywords)
        (world st) = (content, w) ->
      json_loads content ≫= QueryOutput_validate = None ->
      main st = (Raise ValidationError, {| world := w; files := files st |}))
  /\ (forall d title description criteria (st : State) content w acc,
        Dict.get "title" d = Some title ->
        Dict.get "description" d = Some description ->
        Dict.get "criteria" d = Some criteria ->
        ollama_chat (summary_request title description criteria) (world st)
          = (content, w) ->
        json_loads content ≫= JobSummary_validate = None ->
        enrich (VDict d) acc st
        = (Raise ValidationError, {| world := w; files := files st |}))
  /\ (forall d title (st : State) s st1 content w acc,
        Dict.get "title" d = Some title ->
        get_summary (VDict d) st = (Ok s, st1) ->
        ollama_chat
          (relevance_request user_profile keywords excluded_keywords
             title (summary_dict s)) (world st1) = (content, w) ->
        json_loads content ≫= RelevanceResult_validate = None ->
        enrich (VDict d) acc st
        = (Raise ValidationError, {| world := w; files := files st |}))
  /\ (forall (before : list value) (job : value) (rest : list value)
             (st : State) acc st1 e st2,
        foldM enrich before [] st = (Ok acc, st1) ->
        enrich job acc st1 = (Raise e, st2) ->
        enrich_all (before ++ job :: rest) st = (Raise e, st2)
        /\ files st2 = files st1
        /\ (before <> [] ->
            files st2 !! RESULT_FILE = Some (json_dumps (VList acc)))
        /\ (before = [] -> files st2 = files st)).
Proof.
  split; [|split; [|split]].
  - intros st content w Hc Hv. unfold main. apply bind_raise.
    rewrite generate_queries_run, Hc. unfold validated. by rewrite Hv.
  - intros d title description criteria st content w acc Ht Hd Hc Hchat Hv.
    apply enrich_raise_summary.
    rewrite (get_summary_run _ _ _ _ _ Ht Hd Hc), Hchat.
    unfold validated. by rewrite Hv.
  - intros d title st s st1 content w acc Ht Hs Hchat Hv.
    pose proof (keeps_files_get_summary _ _ _ _ Hs) as Hf.
    eapply enrich_raise_relevance; [exact Hs|].
    erewrite is_job_relevant_run;
      [| by rewrite dict_get_set_ne | apply dict_get_set_eq].
    rewrite Hchat. unfold validated. by rewrite Hv, Hf.
  - intros before job rest st acc st1 e st2 H1 H2.
    pose proof (enrich_raise _ _ _ _ _ H2) as Hf.
    destruct (enrich_loop_ok _ _ _ _ _ H1) as (es & -> & _ & Hne & Hnil).
    repeat split; [| done | |].
    + unfold enrich_all. rewrite foldM_app, (bind_ok _ _ _ _ _ H1).
      by apply foldM_raise.
    + intros Hd. rewrite Hf. by apply Hne.
    + intros Hd. rewrite Hf. by rewrite (Hnil Hd).
Qed.

End Enrich.

(** ** Structured outputs *)

Section Verdicts.
Context {P : Platform}.

Lemma field_Some {A} k (conv : value -> option A) d a :
  field k conv d = Some a -> exists v, Dict.get k d = Some v /\ conv v = Some a.
Proof.
  unfold field. destruct (Dict.get k d) as [v|]; [|done]. simpl. eauto.
Qed.

(** C7 (as amended).  Validation enforces no range on the confidence.  An
    accepted verdict is read off the three fields of the model's output: a
    JSON boolean and a JSON float are taken as they are, whatever the
    float, the explanation is the JSON string found there, and a value of
    another JSON type under ["relevant"] or ["confidence"] is converted or
    refused by pydantic.  An answer of the model that validation rejects
    makes [is_job_relevant] raise [ValidationError], and an accepted one is
    returned as validated: no other verdict is ever put in its place. *)
Theorem relevance_validation :
  (forall d r,
      RelevanceResult_validate (VDict d) = Some r ->
      exists vb vc,
        Dict.get "relevant" d = Some vb
        /\ as_bool vb = Some (relevant r)
        /\ Dict.get "explanation" d = Some (VStr (explanation r))
        /\ Dict.get "confidence" d = Some vc
        /\ as_float vc = Some (confidence r))
  /\ (forall (b : bool) (x : float),
        as_bool (VBool b) = Some b /\ as_float (VFloat x) = Some x)
  /\ (forall (b : bool) (e : string) (x : float),
        RelevanceResult_validate
          (VDict [ ("relevant", VBool b); ("explanation", VStr e);
                   ("confidence", VFloat x) ])
        = Some {| relevant := b; explanation := e; confidence := x |})
  /\ (forall d title summary up kw ex (st : State) content w,
        Dict.get "title" d = Some title ->
        Dict.get "summary" d = Some summary ->
        ollama_chat (relevance_request up kw ex title summary) (world st)
          = (content, w) ->
        is_job_relevant (VDict d) up kw ex st
        = (match json_loads content ≫= RelevanceResult_validate with
           | Some r => Ok r
           | None => Raise ValidationError
           end, {| world := w; files := files st |})).
Proof.
  split; [|split; [|split]].
  - intros d r. simpl.
    destruct (field "relevant" as_bool d) as [b|] eqn:Eb; [|done].
    destruct (field "explanation" as_str d) as [e|] eqn:Ee; [|done].
    destruct (field "confidence" as_float d) as [c|] eqn:Ec; [|done].
    simpl. intros [= <-]. simpl.
    apply field_Some in Eb as (vb & Hb & Cb).
    apply field_Some in Ee as (ve & He & Ce).
    apply field_Some in Ec as (vc & Hc & Cc).
    destruct ve; try done. simpl in Ce. injection Ce as ->.
    by exists vb, vc.
  - done.
  - reflexivity.
  - intros d title summary up kw ex st content w Ht Hs Hchat.
    by rewrite (is_job_relevant_run _ _ _ _ _ _ _ Ht Hs), Hchat.
Qed.

(** What a step of the loop has added is the entry of its job. *)
Lemma enrich_ok_entry job acc (st : State) acc' st' :
  enrich job acc st = (Ok acc', st') ->
  exists e, acc' = acc ++ [e] /\ entry_of job e.
Proof.
  unfold enrich. rewrite bind_run.
  destruct (get_summary job st) as [[s|e0] st1] eqn:E1; [|done].
  destruct job as [| | | | | |d]; try done.
  revert E1. unfold get_summary at 1, getitem.
  destruct (Dict.get "title" d) as [title|] eqn:Ht; [|done].
  destruct (Dict.get "description" d) as [description|] eqn:Hd; [|done].
  destruct (Dict.get "criteria" d) as [criteria|] eqn:Hc; [|done].
  rewrite bind_run, ret_run, bind_run, ret_run, bind_run, ret_run.
  rewrite bind_run, chat_run.
  destruct (ollama_chat _ (world st)) as [content1 w1] eqn:C1.
  rewrite model_validate_json_run. unfold validated.
  destruct (json_loads content1 ≫= JobSummary_validate) as [s1|] eqn:V1; [|done].
  intros [= -> <-]. simpl. rewrite bind_run, ret_run, bind_run.
  erewrite is_job_relevant_run;
    [| by rewrite dict_get_set_ne | apply dict_get_set_eq].
  simpl.
  destruct (ollama_chat _ w1) as [content2 w2] eqn:C2.
  unfold validated.
  destruct (json_loads content2 ≫= RelevanceResult_validate) as [r|] eqn:V2;
    [|done].
  rewrite bind_run. unfold json_dump, write_text. intros [= <- _].
  eexists. split; [reflexivity|].
  by exists d, title, description, criteria, (world st), content1, w1, s,
    content2, w2, r.
Qed.

Lemma enrich_loop_entries jobs acc (st : State) acc' st' :
  foldM enrich jobs acc st = (Ok acc', st') ->
  exists es, acc' = acc ++ es /\ Forall2 entry_of jobs es.
Proof.
  revert acc st. induction jobs as [|job jobs IH]; intros acc st H.
  - injection H as <- _. exists []. rewrite app_nil_r. by split.
  - simpl in H. rewrite bind_run in H.
    destruct (enrich job acc st) as [[acc1|e] st1] eqn:E; [|done].
    destruct (enrich_ok_entry _ _ _ _ _ E) as (e & -> & He).
    destruct (IH _ _ H) as (es & -> & HF).
    exists (e :: es). rewrite <- app_assoc. split; [done|]. by constructor.
Qed.

(** C9.  The entry written for a stored job keeps every field of the job:
    all keys other than ["summary"] and ["relevance"] have the value they
    had; ["summary"] holds the two lists of the job's [JobSummary] and
    ["relevance"] the three fields of its [RelevanceResult]; and for a
    record built by the scraper (as for any job that has neither key) the
    entry is that record with the two fields added at its end.  Every
    entry of a completed enrichment is the entry of the stored job at the
    same position: its summary is the validated answer of the model for
    that job's title, description and criteria, and its verdict the
    validated answer for that title and that summary. *)
Theorem enriched_job_keeps_fields :
  (forall (d : list (string * value)) (s : JobSummary) (r : RelevanceResult),
      exists e,
        enriched_job d s r = VDict e
        /\ (forall k, k <> "summary" -> k <> "relevance" ->
                      Dict.get k e = Dict.get k d)
        /\ Dict.get "summary" e
           = Some (VDict
                     [ ("key_requirements", VList (map VStr (key_requirements s)));
                       ("role_details", VList (map VStr (role_details s))) ])
        /\ Dict.get "relevance" e
           = Some (VDict
                     [ ("relevant", VBool (relevant r));
                       ("confidence", VFloat (confidence r));
                       ("explanation", VStr (explanation r)) ])
        /\ (Dict.get "summary" d = None -> Dict.get "relevance" d = None ->
            e = d ++ [ ("summary", summary_dict s);
                       ("relevance", relevance_dict r) ])
        /\ (scraped_record (VDict d) ->
            e = d ++ [ ("summary", summary_dict s);
                       ("relevance", relevance_dict r) ]))
  /\ (forall jobs (st : State) acc st',
        enrich_all jobs st = (Ok acc, st') ->
        Forall2 entry_of jobs acc).
Proof.
  split.
  - intros d s r. eexists. split; [reflexivity|]. repeat split.
    + intros k Hs Hr. rewrite dict_get_set_ne by done.
      by rewrite dict_get_set_ne.
    + rewrite dict_get_set_ne by done. apply dict_get_set_eq.
    + apply dict_get_set_eq.
    + intros Hs Hr. rewrite (dict_set_fresh "summary") by done.
      rewrite dict_set_fresh; [by rewrite <- app_assoc|].
      by rewrite dict_get_app_fresh.
    + intros (job_id & job_soup & E). rewrite job_info_literal in E.
      injection E as ->.
      reflexivity.
  - intros jobs st acc st' H.
    destruct (enrich_loop_entries _ _ _ _ _ H) as (es & -> & HF). done.
Qed.

(** C8.  The offsets of the scrape stage are 0, 25, 50, 75 and 100: the
    multiples of 25 from 0 that are strictly below [MAX_SCRAPE = 125]; and
    [get_job_offers] is the scraper called on the whole list of queries
    once for each of them, in that order, whatever the pages return. *)
Theorem scrape_offsets :
  MAX_SCRAPE = 125
  /\ range 0 MAX_SCRAPE 25 = [0; 25; 50; 75; 100]
  /\ (forall x, In x (range 0 MAX_SCRAPE 25) <->
                0 <= x < MAX_SCRAPE /\ x mod 25 = 0)
  /\ (forall queries location (st : State),
        get_job_offers queries location st
        = (scrape_linkedin_jobs queries location 0;;
           scrape_linkedin_jobs queries location 25;;
           scrape_linkedin_jobs queries location 50;;
           scrape_linkedin_jobs queries location 75;;
           scrape_linkedin_jobs queries location 100;;
           mret tt) st).
Proof.
  split; [reflexivity|]. split; [reflexivity|]. split.
  - intros x. rewrite range_spec by lia. by rewrite Z.sub_0_r.
  - intros queries location st. unfold get_job_offers.
    change (range 0 MAX_SCRAPE 25) with [0; 25; 50; 75; 100].
    cbn [foldM]. revert st.
    do 4 (intros st; rewrite seq_unit, 2!bind_run;
          destruct (scrape_linkedin_jobs _ _ _ st) as [[?|?] st1];
          [clear st; revert st1 | reflexivity]).
    intros st. rewrite !bind_run.
    by destruct (scrape_linkedin_jobs _ _ _ st) as [[?|?] ?].
Qed.

End Verdicts.

(** * Further properties of the code *)

(** ** Strings *)

Lemma code_points_cons c s :
  PyStr.code_points (String c s) =
  match PyStr.code_points s with
  | [] => [String c EmptyString]
  | p :: ps =>
      if PyStr.starts_with_continuation p then String c p :: ps
      else String c EmptyString :: p :: ps
  end.
Proof. reflexivity. Qed.

(** The first character begins with the first byte. *)
Lemma code_points_head s :
  match PyStr.code_points s with
  | [] => s = EmptyString
  | p :: _ =>
      PyStr.starts_with_continuation p = PyStr.starts_with_continuation s
  end.
Proof.
  destruct s as [|c s]; [done|]. rewrite code_points_cons.
  destruct (PyStr.code_points s) as [|p ps]; [done|].
  by destruct (PyStr.starts_with_continuation p).
Qed.

Lemma code_points_single c s :
  PyStr.starts_with_continuation s = false ->
  PyStr.code_points (String c s) = String c EmptyString :: PyStr.code_points s.
Proof.
  intros Hs. rewrite code_points_cons. pose proof (code_points_head s) as Hh.
  destruct (PyStr.code_points s) as [|p ps]; [done|]. by rewrite Hh, Hs.
Qed.

Lemma code_points_continuation t s :
  all_continuation t = true -> t <> EmptyString ->
  PyStr.starts_with_continuation s = false ->
  PyStr.code_points (t ++ s) = t :: PyStr.code_points s.
Proof.
  intros Ht Hne Hs. induction t as [|c t IH]; [done|].
  simpl in Ht. apply andb_true_iff in Ht as [Hc Ht].
  destruct t as [|c' t'].
  - by apply code_points_single.
  - change ((String c (String c' t') ++ s)%string)
      with (String c (String c' t' ++ s)).
    rewrite code_points_cons, IH by done.
    simpl in Ht. apply andb_true_iff in Ht as [Hc' _].
    simpl. by rewrite Hc'.
Qed.

Lemma code_points_group g s :
  is_group g = true ->
  PyStr.starts_with_continuation s = false ->
  PyStr.code_points (g ++ s) = g :: PyStr.code_points s.
Proof.
  destruct g as [|c t]; [done|]. intros Ht Hs. simpl in Ht.
  destruct t as [|c' t'].
  - by apply code_points_single.
  - change ((String c (String c' t') ++ s)%string)
      with (String c (String c' t' ++ s)).
    rewrite code_points_cons, code_points_continuation by done.
    simpl in Ht. apply andb_true_iff in Ht as [Hc' _].
    simpl. by rewrite Hc'.
Qed.

Lemma string_app_empty (s : string) : (s ++ EmptyString)%string = s.
Proof.
  induction s as [|c s IH]; [done|].
  change (String c (s ++ EmptyString)%string = String c s). by rewrite IH.
Qed.

Lemma well_grouped_tail g l : well_grouped (g :: l) -> well_grouped l.
Proof.
  intros [Hg Ht]. inversion Hg; subst. split; [done|].
  simpl in Ht. destruct l; [constructor|]. by inversion Ht.
Qed.

(** Putting characters together and taking them apart again. *)
Lemma code_points_concat l :
  well_grouped l -> PyStr.code_points (String.concat EmptyString l) = l.
Proof.
  induction l as [|g l IH]; intros Hw; [done|].
  pose proof (well_grouped_tail _ _ Hw) as Hl.
  destruct Hw as [Hg Ht]. inversion Hg as [|? ? Hgg _]; subst.
  destruct l as [|g' l'].
  - simpl. rewrite <- (string_app_empty g) at 1.
    by rewrite code_points_group.
  - change (String.concat EmptyString (g :: g' :: l'))
      with ((g ++ String.concat EmptyString (g' :: l'))%string).
    rewrite code_points_group, IH; [done | done | done |].
    simpl in Ht. inversion Ht as [|? ? Hs _]; subst.
    destruct Hl as [Hl _]. inversion Hl as [|? ? Hg' _]; subst.
    destruct g' as [|c' t']; [done|]. by destruct l'.
Qed.

Lemma code_points_well_grouped s : well_grouped (PyStr.code_points s).
Proof.
  induction s as [|c s [Hg Ht]]; [by split; constructor|].
  rewrite code_points_cons.
  destruct (PyStr.code_points s) as [|p ps]; [by split; repeat constructor|].
  inversion Hg as [|? ? Hp Hps]; subst.
  destruct (PyStr.starts_with_continuation p) eqn:E.
  - split; [|done]. constructor; [|done].
    destruct p as [|c0 t0]; [done|]. simpl in *. by rewrite E.
  - split; [by repeat constructor|]. simpl. by constructor.
Qed.

Lemma lstrip_well_grouped l : well_grouped l -> well_grouped (PyStr.lstrip l).
Proof.
  induction l as [|ch l IH]; intros Hw; [done|]. simpl.
  destruct (PyStr.isspace ch); [|done]. apply IH. by eapply well_grouped_tail.
Qed.

Lemma rstrip_Forall (Q : string -> Prop) l :
  Forall Q l -> Forall Q (PyStr.rstrip l).
Proof.
  induction l as [|ch l IH]; intros H; [done|].
  inversion H; subst. simpl.
  destruct (PyStr.rstrip l) as [|b r].
  - destruct (PyStr.isspace ch); by repeat constructor.
  - constructor; [done|]. by apply IH.
Qed.

Lemma rstrip_well_grouped l : well_grouped l -> well_grouped (PyStr.rstrip l).
Proof.
  intros [Hg Ht]. split; [by apply rstrip_Forall|].
  destruct l as [|ch l]; [constructor|]. simpl in *.
  pose proof (rstrip_Forall _ _ Ht) as Hr.
  destruct (PyStr.rstrip l) as [|b r]; [|done].
  destruct (PyStr.isspace ch); constructor.
Qed.

Lemma lstrip_head l ch :
  head (PyStr.lstrip l) = Some ch -> PyStr.isspace ch = false.
Proof.
  induction l as [|a l IH]; simpl; [done|].
  destruct (PyStr.isspace a) eqn:E; [done|]. simpl. by intros [= <-].
Qed.

Lemma lstrip_last l ch :
  last (PyStr.lstrip l) = Some ch -> last l = Some ch.
Proof.
  induction l as [|a l IH]; simpl; [done|].
  destruct (PyStr.isspace a); [|done]. intros H.
  by rewrite last_cons, (IH H).
Qed.

Lemma rstrip_last l ch :
  last (PyStr.rstrip l) = Some ch -> PyStr.isspace ch = false.
Proof.
  revert ch. induction l as [|a l IH]; intros ch; simpl; [done|].
  destruct (PyStr.rstrip l) as [|b r] eqn:E.
  - destruct (PyStr.isspace a) eqn:Ea; simpl; [done|]. by intros [= <-].
  - rewrite last_cons_cons. apply IH.
Qed.

(** X1.  [safe_text] always returns a string, and the first and the last
    character of that string are not white space, in the sense of
    [str.isspace] on all of Unicode: the text of an element is stripped
    and the sentinel has none. *)
Theorem safe_text_trimmed (tag : option Node) :
  exists s, safe_text tag = VStr s /\ trimmed s.
Proof.
  destruct tag as [t|]; simpl.
  - eexists. split; [reflexivity|]. unfold trimmed, PyStr.strip.
    rewrite code_points_concat
      by apply lstrip_well_grouped, rstrip_well_grouped, code_points_well_grouped.
    split; intros ch H.
    + by apply lstrip_head in H.
    + apply lstrip_last in H. by apply rstrip_last in H.
  - exists UNKNOWN. split; [reflexivity|].
    split; intros ch; vm_compute; by intros [= <-].
Qed.

Lemma chars_app s1 s2 : chars (s1 ++ s2) = chars s1 ++ chars s2.
Proof. induction s1 as [|a s1 IH]; simpl; [done|]. by rewrite <- IH. Qed.

Lemma hex_digit_safe (n : N) : (n < 16)%N -> PyStr.always_safe (PyStr.hex_digit n) = true.
Proof.
  intros H. destruct n as [|p]; [reflexivity|].
  do 4 (try destruct p as [p|p|]); try reflexivity; lia.
Qed.

Lemma N_of_ascii_bound c : (N_of_ascii c < 256)%N.
Proof. by destruct c as [[] [] [] [] [] [] [] []]. Qed.

(** X2.  [quote] leaves only unreserved characters, ["/"] and ["%"] in a
    string, so a query or location can never add ["&"], ["="], ["?"], ["#"]
    or a space to the listing address; a string of unreserved characters
    is left as it is. *)
Theorem quote_safe (s : string) :
  Forall (fun c => PyStr.always_safe c = true \/ c = "%"%char)
         (chars (PyStr.quote s))
  /\ (Forall (fun c => PyStr.always_safe c = true) (chars s) ->
      PyStr.quote s = s).
Proof.
  split.
  - induction s as [|a s IH]; simpl; [constructor|].
    rewrite chars_app. apply Forall_app. split; [|done].
    destruct (PyStr.always_safe a) eqn:E; simpl.
    + constructor; [by left | constructor].
    + pose proof (N_of_ascii_bound a) as Hb.
      constructor; [by right|].
      constructor; [left; apply hex_digit_safe|].
      { apply N.Div0.div_lt_upper_bound. lia. }
      constructor; [left; apply hex_digit_safe | constructor].
      apply N.mod_lt. lia.
  - induction s as [|a s IH]; simpl; [done|].
    intros H. inversion H as [|? ? Ha Hs]; subst.
    rewrite Ha. simpl. by rewrite IH.
Qed.

Lemma split_shape (sep : ascii) (s : string) :
  exists w ws,
    PyStr.split sep s = w :: ws
    /\ match last ws with
       | None => s = w /\ (sep ∉ chars w)
       | Some job_id =>
           (sep ∉ chars job_id) /\ exists p, s = (p ++ String sep job_id)%string
       end.
Proof.
  induction s as [|c s (w & ws & Hs & IH)]; simpl.
  - exists EmptyString, []. repeat split. simpl. apply not_elem_of_nil.
  - destruct (Ascii.eqb c sep) eqn:E.
    + apply Ascii.eqb_eq in E. subst c.
      exists EmptyString, (w :: ws). rewrite Hs. split; [done|].
      rewrite last_cons. destruct (last ws) as [job_id|].
      * destruct IH as (Hn & p & ->). split; [done|].
        by exists (String sep p).
      * destruct IH as (-> & Hn). split; [done|]. by exists EmptyString.
    + apply Ascii.eqb_neq in E. rewrite Hs.
      exists (String c w), ws. split; [done|].
      destruct (last ws) as [job_id|].
      * destruct IH as (Hn & p & ->). split; [done|].
        by exists (String c p).
      * destruct IH as (-> & Hn). split; [done|].
        simpl. intros [?|?]%elem_of_cons; [congruence | done].
Qed.

Lemma split_last (sep : ascii) (s : string) :
  exists job_id,
    last (PyStr.split sep s) = Some job_id
    /\ (sep ∉ chars job_id)
    /\ (s = job_id \/ exists p, s = (p ++ String sep job_id)%string).
Proof.
  destruct (split_shape sep s) as (w & ws & -> & H).
  rewrite last_cons. destruct (last ws) as [job_id|].
  - destruct H as (Hn & p & ->). exists job_id. eauto.
  - destruct H as (-> & Hn). exists w. eauto.
Qed.

Lemma job_id_of_not_IndexError job : job_id_of job <> Raise IndexError.
Proof.
  unfold job_id_of.
  destruct (Soup.tag_find _ _ job) as [div|]; [|done].
  destruct (Soup.get _ div) as [urn|]; [|done].
  by destruct (split_last ":" urn) as (job_id & -> & _).
Qed.

(** X3.  The identifier of a card is the part of its [data-entity-urn]
    after the last colon (the whole attribute when it has no colon); it
    contains no colon, and taking the last piece never fails: [job_id_of]
    does not raise [IndexError]. *)
Theorem job_id_of_card :
  (forall job, job_id_of job <> Raise IndexError)
  /\ (forall job div urn,
        Soup.tag_find "div" (Some "base-card") job = Some div ->
        Soup.get "data-entity-urn" div = Some urn ->
        exists job_id,
          job_id_of job = Ok (Some job_id)
          /\ (":"%char ∉ chars job_id)
          /\ (urn = job_id \/ exists p, urn = (p ++ String ":" job_id)%string)).
Proof.
  split; [apply job_id_of_not_IndexError|].
  intros job div urn Hd Hu. unfold job_id_of. rewrite Hd, Hu.
  destruct (split_last ":" urn) as (job_id & -> & Hn & Hs). eauto.
Qed.

(** ** Documents *)

(** X4.  [find] returns the first match in document order: the node it
    returns matches, and no node before it in the document does. *)
Theorem find_is_first_match (name : string) (cls : option string)
    (doc : list Node) (t : Node) :
  Soup.find name cls doc = Some t ->
  exists before after,
    Soup.all_nodes doc = before ++ t :: after
    /\ Soup.matches name cls t = true
    /\ Forall (fun n => Soup.matches name cls n = false) before.
Proof.
  unfold Soup.find, Soup.find_in, Soup.find_all_in.
  induction (Soup.all_nodes doc) as [|n ns IH]; simpl; [done|].
  destruct (Soup.matches name cls n) eqn:E; simpl.
  - intros [= <-]. exists [], ns. by repeat split.
  - intros H. destruct (IH H) as (before & after & -> & Hm & Hb).
    exists (n :: before), after. repeat split; [done|]. by constructor.
Qed.

(** ** Offsets *)

Lemma map_seq_sorted (f : nat -> Z) (k n : nat) :
  (forall i j, (i < j)%nat -> f i < f j) ->
  StronglySorted Z.lt (map f (seq k n)).
Proof.
  intros Hf. revert k. induction n as [|n IH]; intros k; simpl; constructor.
  - apply IH.
  - apply List.Forall_forall. intros x Hx.
    apply in_map_iff in Hx as (j & <- & Hj). apply in_seq in Hj.
    apply Hf. lia.
Qed.

(** X5.  For a positive step the offsets of [range] increase strictly, so
    no offset occurs twice; and there is no offset at all when [stop] is
    not above [start]. *)
Theorem range_increasing (start stop step : Z) :
  0 < step ->
  StronglySorted Z.lt (range start stop step)
  /\ NoDup (range start stop step)
  /\ (stop <= start -> range start stop step = []).
Proof.
  intros Hstep.
  assert (StronglySorted Z.lt (range start stop step)) as Hs.
  { unfold range. apply map_seq_sorted. intros i j Hij. nia. }
  split; [done|]. split.
  - clear -Hs. induction Hs as [|x l _ IH Hx]; constructor; [|done].
    intros Hin. rewrite List.Forall_forall in Hx.
    apply list_elem_of_In in Hin. specialize (Hx _ Hin). lia.
  - intros Hle. unfold range.
    assert ((stop - start + step - 1) / step <= 0) as Hq.
    { apply Z.lt_succ_r. apply Z.div_lt_upper_bound; lia. }
    by replace (Z.to_nat ((stop - start + step - 1) / step)) with 0%nat by lia.
Qed.

(** ** Structured outputs, stored and read back *)

Lemma mapM_as_str (l : list string) : mapM as_str (map VStr l) = Some l.
Proof. induction l as [|x l IH]; simpl; [done|]. by rewrite IH. Qed.

(** X6.  The dictionaries written under ["summary"] and ["relevance"] are
    valid outputs of their classes and validate to the very objects they
    were built from. *)
Theorem stored_dicts_validate {P : Platform}
    (s : JobSummary) (r : RelevanceResult) :
  JobSummary_validate (summary_dict s) = Some s
  /\ RelevanceResult_validate (relevance_dict r) = Some r.
Proof.
  destruct s as [k d], r as [b e c]. split.
  - unfold JobSummary_validate, summary_dict, field. simpl.
    by rewrite !mapM_as_str.
  - reflexivity.
Qed.

(** ** The scraper *)

Section Scraper_more.
Context {P : Platform}.

Lemma bind_ok_inv {A B} (m : M A) (f : A -> M B) (st : State) b st' :
  (m ≫= f) st = (Ok b, st') ->
  exists a st1, m st = (Ok a, st1) /\ f a st1 = (Ok b, st').
Proof.
  rewrite bind_run. destruct (m st) as [[a|e] st1]; [eauto | done].
Qed.

Lemma bind_raise_inv {A B} (m : M A) (f : A -> M B) (st : State) e st' :
  (m ≫= f) st = (Raise e, st') ->
  m st = (Raise e, st')
  \/ exists a st1, m st = (Ok a, st1) /\ f a st1 = (Raise e, st').
Proof.
  rewrite bind_run. destruct (m st) as [[a|e1] st1]; [eauto|].
  intros [= <- <-]. by left.
Qed.

(** Whatever a loop raises was raised by its body. *)
Lemma foldM_raise_inv {A S} (body : A -> S -> M S) (Q : Exn -> Prop) xs s st e st' :
  (forall x s st e st', body x s st = (Raise e, st') -> Q e) ->
  foldM body xs s st = (Raise e, st') -> Q e.
Proof.
  intros Hb. revert s st. induction xs as [|x xs IH]; intros s st; [done|].
  simpl. intros [H | (s1 & st1 & _ & H)]%bind_raise_inv; eauto.
Qed.

Lemma keeps_file_of_files {A} path (m : M A) : keeps_files m -> keeps_file path m.
Proof. intros H st r st' E. by rewrite (H _ _ _ E). Qed.

Lemma keeps_file_bind {A B} path (m : M A) (f : A -> M B) :
  keeps_file path m -> (forall a, keeps_file path (f a)) ->
  keeps_file path (m ≫= f).
Proof.
  intros Hm Hf st r st'. rewrite bind_run.
  destruct (m st) as [[a|e] st1] eqn:E.
  - intros H. rewrite (Hf _ _ _ _ H). eauto.
  - intros [= _ <-]. eauto.
Qed.

Lemma keeps_file_foldM {A S} path (body : A -> S -> M S) xs s :
  (forall x s, keeps_file path (body x s)) -> keeps_file path (foldM body xs s).
Proof.
  intros Hb. revert s. induction xs as [|x xs IH]; intros s; simpl.
  - apply keeps_file_of_files, keeps_files_ret.
  - apply keeps_file_bind; auto.
Qed.

(** Loading the store changes nothing, and it raises only what the decoder
    raises on the text of the file, and never [JSONDecodeError]. *)
Lemma load_jobs_cases (st : State) :
  (exists v, load_jobs st = (Ok v, st))
  \/ (exists t, files st !! JOBS_FILE = Some t /\ json_loads t = None
                /\ load_error t <> JSONDecodeError
                /\ load_jobs st = (Raise (load_error t), st)).
Proof.
  destruct (files st !! JOBS_FILE) as [t|] eqn:E.
  - rewrite (load_jobs_present _ _ E).
    destruct (json_loads t) as [v|] eqn:Et; [left; by eexists|].
    destruct (is_JSONDecodeError (load_error t)) eqn:Ee; [left; by eexists|].
    right. exists t. do 2 (split; [done|]). split; [|done].
    intros Hj. by rewrite Hj in Ee.
  - rewrite (load_jobs_absent _ E). left; by eexists.
Qed.

(** X7.  Fetching the details of the identifiers of a page never fails
    when the jobs are held in a list: the loop returns that list with at
    most one record more per identifier, each built by [job_info], and
    writes no file. *)
Theorem detail_loop_never_fails (ids : list string) (old : list value) (st : State) :
  exists new st',
    foldM scrape_job ids (VList old) st = (Ok (VList (old ++ new)), st')
    /\ (length new <= length ids)%nat
    /\ files st' = files st
    /\ Forall scraped_record new.
Proof.
  revert old st. induction ids as [|job_id ids IH]; intros old st.
  - exists [], st. rewrite app_nil_r. by repeat split.
  - simpl. rewrite bind_run, scrape_job_run.
    destruct (requests_get _ _) as [r w].
    destruct (negb _).
    + destruct (IH old {| world := w; files := files st |})
        as (new & st' & -> & Hl & Hf & HQ).
      exists new, st'. repeat split; [simpl; lia | done | done].
    + destruct (IH (old ++ [job_info (job_url_of job_id) (text r)])
                  {| world := w; files := files st |})
        as (new & st' & -> & Hl & Hf & HQ).
      exists (job_info (job_url_of job_id) (text r) :: new), st'.
      rewrite <- app_assoc. repeat split; [simpl; lia | done |].
      constructor; [by eexists _, _ | done].
Qed.

(** X8.  Let the loop over the identifiers have reached [job_id] and let
    the detail endpoint answer it with a status other than 200.  Then
    [job_id] adds no record, nothing is raised, and the loop goes on with
    the identifiers after it. *)
Theorem failed_detail_is_skipped (ids1 : list string) (job_id : string)
    (ids2 : list string) (jl : value) (st : State) (jl1 : value) (st1 : State)
    (r : Response) (w : World) :
  foldM scrape_job ids1 jl st = (Ok jl1, st1) ->
  requests_get (job_url_of job_id) (world st1) = (r, w) ->
  status_code r <> 200 ->
  scrape_job job_id jl1 st1 = (Ok jl1, {| world := w; files := files st1 |})
  /\ foldM scrape_job (ids1 ++ job_id :: ids2) jl st
     = foldM scrape_job ids2 jl1 {| world := w; files := files st1 |}.
Proof.
  intros H1 Hr Hs.
  assert (scrape_job job_id jl1 st1
          = (Ok jl1, {| world := w; files := files st1 |})) as Hj.
  { unfold scrape_job, get_url. rewrite bind_run, Hr.
    apply Z.eqb_neq in Hs. by rewrite Hs. }
  split; [done|].
  rewrite foldM_app, (bind_ok _ _ _ _ _ H1). simpl.
  by rewrite (bind_ok _ _ _ _ _ Hj).
Qed.

Lemma collect_ids_ok page acc (st : State) :
  Forall (fun job => exists o, job_id_of job = Ok o) page ->
  foldM collect_id page acc st = (Ok (acc ++ omap item_id page), st).
Proof.
  revert acc. induction page as [|job page IH]; intros acc H.
  - simpl. by rewrite app_nil_r.
  - inversion H as [|? ? [o Ho] Hp]; subst.
    simpl. rewrite bind_run, collect_id_run. unfold item_id at 1. rewrite Ho.
    destruct o as [job_id|]; rewrite (IH _ Hp); [|done].
    by rewrite <- app_assoc.
Qed.

(** X9.  The identifiers collected from a listing page are those of the
    items that have a card, in document order; items without a card add
    nothing.  The first item whose card lacks [data-entity-urn] makes the
    collection raise, whatever the items after it are. *)
Theorem collected_ids (acc : list string) (st : State) :
  (forall page,
      Forall (fun job => exists o, job_id_of job = Ok o) page ->
      foldM collect_id page acc st = (Ok (acc ++ omap item_id page), st))
  /\ (forall page1 job page2 e,
        Forall (fun job => exists o, job_id_of job = Ok o) page1 ->
        job_id_of job = Raise e ->
        foldM collect_id (page1 ++ job :: page2) acc st = (Raise e, st)
        /\ e = AttributeError).
Proof.
  split; [intros page; apply collect_ids_ok|].
  intros page1 job page2 e H1 He. split.
  - rewrite foldM_app, (bind_ok _ _ _ _ _ (collect_ids_ok _ _ _ H1)).
    apply foldM_raise. by rewrite collect_id_run, He.
  - pose proof (job_id_of_not_IndexError job) as Hn. revert He Hn.
    unfold job_id_of.
    destruct (Soup.tag_find _ _ job) as [div|]; [|done].
    destruct (Soup.get _ div) as [urn|]; [|by intros [= <-]].
    destruct (last _); [done|]. intros [= <-]. congruence.
Qed.

Lemma job_id_of_raise job e : job_id_of job = Raise e -> e = AttributeError.
Proof.
  intros He. pose proof (job_id_of_not_IndexError job) as Hn. revert He Hn.
  unfold job_id_of.
  destruct (Soup.tag_find _ _ job) as [div|]; [|done].
  destruct (Soup.get _ div) as [urn|]; [|by intros [= <-]].
  destruct (last _); [done|]. intros [= <-]. congruence.
Qed.

Lemma scrape_job_raise job_id jl (st : State) e st' :
  scrape_job job_id jl st = (Raise e, st') -> e = AttributeError.
Proof.
  unfold scrape_job, get_url. rewrite bind_run.
  destruct (requests_get _ _) as [r w]. destruct (negb _); [done|].
  destruct jl; simpl; by intros [= <- _].
Qed.

Lemma scrape_query_raise loc i q jl (st : State) e st' :
  scrape_query loc i q jl st = (Raise e, st') -> e = AttributeError.
Proof.
  rewrite scrape_query_run. destruct (requests_get _ _) as [r w]. cbv zeta.
  destruct (negb _); [done|].
  intros [H | (ids & st1 & _ & H)]%bind_raise_inv.
  - revert H. apply (foldM_raise_inv _ (fun e => e = AttributeError)). clear. intros job ids st e st'.
    rewrite collect_id_run. destruct (job_id_of job) as [[?|]|e0] eqn:E; try done.
    intros [= <- _]. by apply job_id_of_raise in E.
  - revert H. apply (foldM_raise_inv _ (fun e => e = AttributeError)). intros ? ? ? ? ?. apply scrape_job_raise.
Qed.

Lemma scrape_raise qs loc i (st : State) e st' :
  scrape_linkedin_jobs qs loc i st = (Raise e, st') ->
  files st' = files st
  /\ (e = AttributeError
      \/ exists t, files st !! JOBS_FILE = Some t /\ json_loads t = None
                   /\ e = load_error t /\ e <> JSONDecodeError).
Proof.
  unfold scrape_linkedin_jobs.
  destruct (load_jobs_cases st) as [[v0 H0] | (t & Hf & Ht & He & H0)].
  - rewrite (bind_ok _ _ _ _ _ H0).
    intros [H | (v & st1 & _ & H)]%bind_raise_inv.
    + split.
      * eapply keeps_files_foldM; [|exact H].
        intros; apply keeps_files_scrape_query.
      * left. revert H.
        apply (foldM_raise_inv _ (fun e => e = AttributeError)).
        intros ? ? ? ? ?. apply scrape_query_raise.
    + by rewrite bind_run in H.
  - rewrite (bind_raise _ _ _ _ _ H0). intros [= <- <-].
    split; [done|]. right. by exists t.
Qed.


Lemma scrape_keeps_file path qs loc i :
  path <> JOBS_FILE -> keeps_file path (scrape_linkedin_jobs qs loc i).
Proof.
  intros Hp st [v|e] st' H.
  - destruct (scrape_linkedin_jobs_ok _ _ _ _ _ _ H) as (? & ? & _ & _ & _ & ->).
    simpl. by rewrite lookup_insert_ne.
  - by destruct (scrape_raise qs loc i st e st' H) as [-> _].
Qed.

End Scraper_more.

(** ** Files and calls *)

Section Files.
Context {P : Platform}.

Lemma keeps_state_json_load path : keeps_state (json_load path).
Proof.
  intros st r st'. unfold json_load, read_text. rewrite bind_run.
  destruct (files st !! path) as [t|]; [|by intros [= _ <-]].
  destruct (json_loads t); by intros [= _ <-].
Qed.

Lemma keeps_state_iterate v : keeps_state (iterate v).
Proof. intros st r st'. destruct v; by intros [= _ <-]. Qed.

Lemma get_job_offers_keeps_file path qs loc :
  path <> JOBS_FILE -> keeps_file path (get_job_offers qs loc).
Proof.
  intros Hp. unfold get_job_offers. apply keeps_file_foldM. intros i [].
  apply keeps_file_bind; [by apply scrape_keeps_file|].
  intros _. apply keeps_file_of_files, keeps_files_ret.
Qed.

Lemma enrich_keeps_file path job acc :
  path <> RESULT_FILE -> keeps_file path (enrich job acc).
Proof.
  intros Hp st [acc'|e] st' H.
  - destruct (enrich_ok _ _ _ _ _ H) as (? & ? & ? & _ & _ & ->).
    by rewrite lookup_insert_ne.
  - by rewrite (enrich_raise _ _ _ _ _ H).
Qed.

(** X11.  The scraper and the scrape stage write no file but the
    scraped-jobs store; an enrichment step writes no file but the result
    store; and a whole run leaves every other file as it was, however it
    ends. *)
Theorem files_written (path : string) :
  (forall queries location start_index,
      path <> JOBS_FILE ->
      keeps_file path (scrape_linkedin_jobs queries location start_index))
  /\ (forall queries location,
        path <> JOBS_FILE -> keeps_file path (get_job_offers queries location))
  /\ (forall job acc, path <> RESULT_FILE -> keeps_file path (enrich job acc))
  /\ (path <> JOBS_FILE -> path <> RESULT_FILE -> keeps_file path main).
Proof.
  split; [intros; by apply scrape_keeps_file|].
  split; [intros; by apply get_job_offers_keeps_file|].
  split; [intros; by apply enrich_keeps_file|].
  intros Hj Hr. unfold main.
  apply keeps_file_bind;
    [apply keeps_file_of_files, keeps_files_generate_queries|]; intros qd.
  apply keeps_file_bind; [by apply get_job_offers_keeps_file|]; intros _.
  apply keeps_file_bind; [|intros v].
  { intros st r st' H. by rewrite (keeps_state_json_load _ _ _ _ H). }
  apply keeps_file_bind; [|intros jobs].
  { intros st r st' H. by rewrite (keeps_state_iterate _ _ _ _ H). }
  apply keeps_file_foldM. intros; by apply enrich_keeps_file.
Qed.

(** X12.  When the scrape stage returns, the scraped-jobs store exists and
    holds the dump of a value, so (under the contract of [json]) the load
    that follows it in [main] succeeds. *)
Theorem get_job_offers_leaves_store (queries : list string) (location : string)
    (st : State) (u : unit) (st' : State) :
  get_job_offers queries location st = (Ok u, st') ->
  exists v,
    files st' !! JOBS_FILE = Some (json_dumps v)
    /\ (json_roundtrip P -> json_load JOBS_FILE st' = (Ok v, st')).
Proof.
  unfold get_job_offers.
  change (range 0 MAX_SCRAPE 25) with ([0; 25; 50; 75] ++ [100]).
  rewrite foldM_app.
  intros (u1 & st1 & _ & H)%bind_ok_inv. simpl in H.
  apply bind_ok_inv in H as (u2 & st2 & H & Hret).
  apply bind_ok_inv in H as (v & st3 & H & Hret').
  injection Hret' as <- <-. injection Hret as <- <-.
  destruct (scrape_linkedin_jobs_ok _ _ _ _ _ _ H) as (? & ? & _ & _ & _ & ->).
  exists v. split; [apply lookup_insert_eq|].
  intros RT. apply json_load_after_dump; [done|]. apply lookup_insert_eq.
Qed.

(** X13.  Under the contract of [json], what one call of the scraper has
    saved is what the next call starts from: the list returned by the
    second call is the list returned by the first one followed by the
    records the second call appended.  Nothing is dropped, reordered or
    merged. *)
Theorem calls_accumulate (qs1 qs2 : list string) (loc1 loc2 : string)
    (i1 i2 : Z) (st : State) (l1 : list value) (st1 : State)
    (v2 : value) (st2 : State) :
  json_roundtrip P ->
  scrape_linkedin_jobs qs1 loc1 i1 st = (Ok (VList l1), st1) ->
  scrape_linkedin_jobs qs2 loc2 i2 st1 = (Ok v2, st2) ->
  exists new, v2 = VList (l1 ++ new) /\ Forall scraped_record new.
Proof.
  intros RT H1 H2.
  destruct (scrape_linkedin_jobs_ok _ _ _ _ _ _ H1) as (? & s1 & _ & _ & _ & ->).
  destruct (scrape_linkedin_jobs_ok _ _ _ _ _ _ H2) as (v0 & s2 & H0 & Hq & _ & _).
  pose proof (load_after_dump (VList l1)
                {| world := world s1; files := files st |} RT) as Hl.
  simpl in Hl. rewrite Hl in H0. injection H0 as <-.
  destruct (appends_scrape_queries _ _ _ _ _ _ _ Hq) as (new & -> & HQ & _).
  eauto.
Qed.

Lemma foldM_fixed {A} (body : A -> value -> M value) xs (v v' : value)
    (st st' : State) :
  (forall x v st v' st',
      is_list v = false -> body x v st = (Ok v', st') -> v' = v) ->
  is_list v = false ->
  foldM body xs v st = (Ok v', st') -> v' = v.
Proof.
  intros Hb Hv. revert st. induction xs as [|x xs IH]; intros st.
  - by intros [= <- _].
  - simpl. intros (v1 & st1 & H1 & H)%bind_ok_inv.
    apply Hb in H1 as ->; [|done]. eauto.
Qed.

Lemma scrape_job_fixed job_id v (st : State) v' st' :
  is_list v = false -> scrape_job job_id v st = (Ok v', st') -> v' = v.
Proof.
  intros Hv. unfold scrape_job, get_url. rewrite bind_run.
  destruct (requests_get _ _) as [r w]. destruct (negb _).
  - by intros [= <- _].
  - by destruct v.
Qed.

Lemma scrape_query_fixed loc i q v (st : State) v' st' :
  is_list v = false -> scrape_query loc i q v st = (Ok v', st') -> v' = v.
Proof.
  intros Hv. rewrite scrape_query_run.
  destruct (requests_get _ _) as [r w]. cbv zeta. destruct (negb _).
  - by intros [= <- _].
  - intros (ids & st1 & _ & H)%bind_ok_inv. revert H.
    apply foldM_fixed; [|done]. intros ? ? ? ? ?. apply scrape_job_fixed.
Qed.

(** X14.  When the store holds valid JSON that is not a list, no record
    can be added to it: fetching a posting with status 200 raises
    [AttributeError], and a call that returns has returned the stored
    value itself and written it back unchanged. *)
Theorem store_that_is_not_a_list :
  (forall job_id jl (st : State) r w,
      is_list jl = false ->
      requests_get (job_url_of job_id) (world st) = (r, w) ->
      status_code r = 200 ->
      scrape_job job_id jl st
      = (Raise AttributeError, {| world := w; files := files st |}))
  /\ (forall queries location start_index (st : State) v0 v st',
        is_list v0 = false ->
        load_jobs st = (Ok v0, st) ->
        scrape_linkedin_jobs queries location start_index st = (Ok v, st') ->
        v = v0 /\ files st' !! JOBS_FILE = Some (json_dumps v0)).
Proof.
  split.
  - intros job_id jl st r w Hl Hr Hs.
    unfold scrape_job, get_url. rewrite bind_run, Hr, Hs. simpl.
    by destruct jl.
  - intros qs loc i st v0 v st' Hl H0 H.
    destruct (scrape_linkedin_jobs_ok _ _ _ _ _ _ H) as (v1 & s1 & H1 & Hq & _ & ->).
    rewrite H0 in H1. injection H1 as <-.
    assert (v = v0) as ->.
    { revert Hq. apply foldM_fixed; [|done].
      intros ? ? ? ? ?. apply scrape_query_fixed. }
    split; [done|]. apply lookup_insert_eq.
Qed.

End Files.

(** ** Enrichment and the whole run *)

Section Enrich_more.
Context {P : Platform}.

(** X15.  A stored job that is not a dictionary makes the enrichment step
    raise [TypeError], and one that lacks ["title"], ["description"] or
    ["criteria"] makes it raise [KeyError] for the first of them that is
    missing; in both cases before any call of the model, with the state
    untouched. *)
Theorem stored_job_must_have_the_text_fields (acc : list value) (st : State) :
  (forall job, (forall d, job <> VDict d) ->
               enrich job acc st = (Raise TypeError, st))
  /\ (forall d,
        Dict.get "title" d = None ->
        enrich (VDict d) acc st = (Raise (KeyError "title"), st))
  /\ (forall d title,
        Dict.get "title" d = Some title ->
        Dict.get "description" d = None ->
        enrich (VDict d) acc st = (Raise (KeyError "description"), st))
  /\ (forall d title description,
        Dict.get "title" d = Some title ->
        Dict.get "description" d = Some description ->
        Dict.get "criteria" d = None ->
        enrich (VDict d) acc st = (Raise (KeyError "criteria"), st)).
Proof.
  split; [|split; [|split]].
  - intros job Hj. destruct job; try reflexivity. by destruct (Hj d).
  - intros d Ht. apply enrich_raise_summary.
    unfold get_summary, getitem. by rewrite Ht.
  - intros d title Ht Hd. apply enrich_raise_summary.
    unfold get_summary, getitem. rewrite Ht, Hd.
    by rewrite bind_run, ret_run.
  - intros d title description Ht Hd Hc. apply enrich_raise_summary.
    unfold get_summary, getitem. rewrite Ht, Hd, Hc.
    by rewrite bind_run, ret_run, bind_run, ret_run.
Qed.

Lemma validated_raise {A} (validate : value -> option A) content e :
  validated validate content = Raise e -> e = ValidationError.
Proof.
  unfold validated. destruct (json_loads content ≫= validate); [done|].
  by intros [= <-].
Qed.

(** X16.  On a record built by the scraper the enrichment step can fail
    in one way only: with [ValidationError], when an answer of the model
    does not validate.  Such a record always has the fields the prompts
    read. *)
Theorem scraped_job_fails_only_on_validation (job : value) (acc : list value)
    (st : State) (e : Exn) (st' : State) :
  scraped_record job ->
  enrich job acc st = (Raise e, st') ->
  e = ValidationError.
Proof.
  intros (job_id & job_soup & ->). rewrite job_info_literal.
  unfold enrich.
  intros [H | (s & st1 & Hs & H)]%bind_raise_inv.
  - erewrite get_summary_run in H by reflexivity.
    destruct (ollama_chat _ _) as [content w]. injection H as H _.
    by apply validated_raise in H.
  - simpl in H. rewrite bind_run, ret_run in H.
    apply bind_raise_inv in H as [H | (r & st2 & _ & H)].
    + erewrite is_job_relevant_run in H by reflexivity.
      destruct (ollama_chat _ _) as [content w]. injection H as H _.
      by apply validated_raise in H.
    + by rewrite bind_run in H.
Qed.

(** X17.  A step of the enrichment loop that succeeds has called the
    model exactly twice, first for the summary of the job's title,
    description and criteria, then for the verdict on the title and on
    that summary; it has added the one entry built from the two validated
    answers and has written the whole list to the result file. *)
Theorem enrich_success (d : list (string * value))
    (title description criteria : value) (st : State)
    (content1 : Text) (w1 : World) (s : JobSummary)
    (content2 : Text) (w2 : World) (r : RelevanceResult) (acc : list value) :
  Dict.get "title" d = Some title ->
  Dict.get "description" d = Some description ->
  Dict.get "criteria" d = Some criteria ->
  ollama_chat (summary_request title description criteria) (world st)
    = (content1, w1) ->
  json_loads content1 ≫= JobSummary_validate = Some s ->
  ollama_chat
    (relevance_request user_profile keywords excluded_keywords
       title (summary_dict s)) w1 = (content2, w2) ->
  json_loads content2 ≫= RelevanceResult_validate = Some r ->
  enrich (VDict d) acc st
  = (Ok (acc ++ [enriched_job d s r]),
     {| world := w2;
        files := <[RESULT_FILE := json_dumps (VList (acc ++ [enriched_job d s r]))]>
                   (files st) |}).
Proof.
  intros Ht Hd Hc H1 Hv1 H2 Hv2. unfold enrich.
  erewrite bind_ok; cycle 1.
  { rewrite (get_summary_run _ _ _ _ _ Ht Hd Hc), H1.
    unfold validated. by rewrite Hv1. }
  simpl. rewrite bind_run, ret_run.
  erewrite bind_ok; cycle 1.
  { erewrite is_job_relevant_run;
      [| by rewrite dict_get_set_ne | apply dict_get_set_eq].
    simpl. rewrite H2. unfold validated. by rewrite Hv2. }
  reflexivity.
Qed.

Lemma main_ok_inv (st : State) acc st' :
  main st = (Ok acc, st') ->
  exists qd st1 st2 v jobs,
    generate_queries user_profile keywords excluded_keywords st = (Ok qd, st1)
    /\ get_job_offers (queries qd) (location qd) st1 = (Ok tt, st2)
    /\ json_load JOBS_FILE st2 = (Ok v, st2)
    /\ iterate v st2 = (Ok jobs, st2)
    /\ enrich_all jobs st2 = (Ok acc, st').
Proof.
  unfold main.
  intros (qd & st1 & H1 & H)%bind_ok_inv.
  apply bind_ok_inv in H as ([] & st2 & H2 & H).
  apply bind_ok_inv in H as (v & st3 & H3 & H).
  pose proof (keeps_state_json_load _ _ _ _ H3) as ->.
  apply bind_ok_inv in H as (jobs & st4 & H4 & H).
  pose proof (keeps_state_iterate _ _ _ _ H4) as ->.
  by exists qd, st1, st2, v, jobs.
Qed.

Lemma json_load_ok_inv path (st : State) v st' :
  json_load path st = (Ok v, st') ->
  exists t, files st !! path = Some t /\ json_loads t = Some v.
Proof.
  unfold json_load, read_text. rewrite bind_run.
  destruct (files st !! path) as [t|]; [|done].
  destruct (json_loads t) as [v0|] eqn:E; [|done].
  intros [= <- _]. by exists t.
Qed.

Lemma iterate_any_state v (st st1 : State) jobs :
  iterate v st = (Ok jobs, st) -> iterate v st1 = (Ok jobs, st1).
Proof. destruct v; try done; by intros [= <-]. Qed.

(** X18.  When a run returns, the store of scraped jobs is still the file
    the scrape stage left: it holds JSON, and the run returns one entry per
    job of it, in the order of the store, each entry being the job with
    the validated summary and verdict of the model for that very job.  If
    that list is not empty the result file holds its dump; if it is empty
    the result file has not been touched, so a result file left by an
    earlier run stays as it is. *)
Theorem main_result (st : State) (acc : list value) (st' : State) :
  main st = (Ok acc, st') ->
  (exists t v jobs,
      files st' !! JOBS_FILE = Some t
      /\ json_loads t = Some v
      /\ iterate v st' = (Ok jobs, st')
      /\ Forall2 entry_of jobs acc)
  /\ (acc <> [] -> files st' !! RESULT_FILE = Some (json_dumps (VList acc)))
  /\ (acc = [] -> files st' !! RESULT_FILE = files st !! RESULT_FILE).
Proof.
  intros (qd & st1 & st2 & v & jobs & H1 & H2 & H3 & H4 & H)%main_ok_inv.
  destruct (enrich_loop_ok _ _ _ _ _ H) as (es & -> & HF & Hne & Hnil).
  destruct (enrich_loop_entries _ _ _ _ _ H) as (es' & Hes & HE).
  simpl in Hes. subst es'. simpl in *. split; [|split].
  - apply json_load_ok_inv in H3 as (t & Ht & Hv). exists t, v, jobs.
    split; [|split; [done | split; [by eapply iterate_any_state | done]]].
    rewrite <- Ht. revert H. apply keeps_file_foldM.
    intros job a. by apply enrich_keeps_file.
  - intros Ha. apply Hne. intros ->. inversion HF. by subst.
  - intros ->. inversion HF; subst. rewrite (Hnil eq_refl).
    rewrite (get_job_offers_keeps_file RESULT_FILE _ _ ltac:(done) _ _ _ H2).
    by rewrite (keeps_files_generate_queries _ _ _ _ _ _ H1).
Qed.

Lemma as_str_list_Some v l :
  as_str_list v = Some l <-> v = VList (map VStr l).
Proof.
  split.
  - destruct v as [| | | | |l0|]; try done. simpl.
    intros H. f_equal. revert l H.
    induction l0 as [|x l0 IH]; intros l; simpl.
    + by intros [= <-].
    + destruct x; try done. simpl.
      destruct (mapM as_str l0) as [k|]; [|done]. simpl.
      intros [= <-]. simpl. by rewrite (IH k).
  - intros ->. apply mapM_as_str.
Qed.

(** X19.  The plan returned by [generate_queries] is read off the answer
    of the model and nothing else: the call returns the plan [q] exactly
    when the answer is a JSON object whose ["location"] is the string
    [location q] and whose ["queries"] is the list of the strings
    [queries q], in that order. *)
Theorem plan_is_the_answer (up : string) (kw ex : list string) (st : State)
    (content : Text) (w : World) (q : QueryOutput) :
  ollama_chat (query_request up kw ex) (world st) = (content, w) ->
  generate_queries up kw ex st = (Ok q, {| world := w; files := files st |})
  <-> exists d,
        json_loads content = Some (VDict d)
        /\ Dict.get "location" d = Some (VStr (location q))
        /\ Dict.get "queries" d = Some (VList (map VStr (queries q))).
Proof.
  intros Hc. rewrite generate_queries_run, Hc. unfold validated. split.
  - destruct (json_loads content) as [v|]; [|done]. simpl.
    destruct v as [| | | | | |d]; try done. simpl.
    destruct (field "location" as_str d) as [l|] eqn:El; [|done]. simpl.
    destruct (field "queries" as_str_list d) as [k|] eqn:Ek; [|done]. simpl.
    intros [= <-]. exists d. simpl.
    apply field_Some in El as (vl & Hl & Cl).
    apply field_Some in Ek as (vk & Hk & Ck).
    destruct vl; try done. injection Cl as ->.
    apply as_str_list_Some in Ck as ->. done.
  - intros (d & -> & Hl & Hk). simpl. unfold field. rewrite Hl, Hk. simpl.
    rewrite mapM_as_str. simpl. by destruct q.
Qed.

End Enrich_more.

(** ** The properties at work on the concrete platform *)

#[local] Existing Instance Demo.platform.

Lemma demo_json_roundtrip : json_roundtrip Demo.platform.
Proof. intros v. reflexivity. Defined.



Lemma store_roundtrip_witness :
  let st := Demo.state [] ∅ in
  let records := [Demo.job_1001; Demo.job_1002] in
  let st' := Demo.state [] (Demo.one_file JOBS_FILE (Demo.Doc (VList records))) in
  scrape_linkedin_jobs Demo.demo_queries "Worldwide" 0 st = (Ok (VList records), st')
  /\ load_jobs st' = (Ok (VList records), st').
Proof.
  intros st records st'.
  assert (scrape_linkedin_jobs Demo.demo_queries "Worldwide" 0 st
          = (Ok (VList records), st')) as H by (vm_compute; reflexivity).
  split; [exact H|].
  destruct (store_roundtrip st demo_json_roundtrip
              ltac:(left; reflexivity)) as [_ Hscrape].
  destruct (Hscrape _ _ _ _ _ H) as (records' & _ & E & _ & Hload).
  injection E as <-. exact Hload.
Defined.

Lemma failed_listing_is_skipped_witness :
  let st := Demo.state [] ∅ in
  let jl := VList [Demo.job_1001; Demo.job_1002] in
  scrape_query "Worldwide" 0 "fertility research" jl st = (Ok jl, st)
  /\ foldM (scrape_query "Worldwide" 0)
       (["PhD Reproduction"] ++ "fertility research" :: ["PhD Reproduction"])
       (VList []) st
     = foldM (scrape_query "Worldwide" 0) ["PhD Reproduction"] jl st.
Proof.
  intros st jl.
  apply (failed_listing_is_skipped ["PhD Reproduction"] "fertility research"
           ["PhD Reproduction"] "Worldwide" 0 (VList []) st jl st
           {| status_code := 404; text := [] |} []).
  - vm_compute. reflexivity.
  - reflexivity.
  - simpl. lia.
Defined.

Lemma scraped_url_field_witness :
  exists new,
    VList [Demo.job_1001; Demo.job_1002] = VList ([] ++ new)
    /\ Forall url_of_posting new.
Proof.
  destruct scraped_url_field as [_ H].
  apply (H Demo.demo_queries "Worldwide" 0 [] (Demo.state [] ∅) _
           (Demo.state []
              (Demo.one_file JOBS_FILE
                 (Demo.Doc (VList [Demo.job_1001; Demo.job_1002]))))).
  - reflexivity.
  - vm_compute. reflexivity.
Defined.

Lemma checkpoint_after_each_job_witness :
  let jobs := [Demo.job_1001; Demo.job_1002] in
  let st := Demo.state [Demo.summary_answer; Demo.relevance_answer] ∅ in
  let st' :=
    Demo.state [] (Demo.one_file RESULT_FILE (Demo.Doc (VList [Demo.entry_1001]))) in
  foldM enrich (take 1 jobs) [] st = (Ok [Demo.entry_1001], st')
  /\ files st' !! RESULT_FILE = Some (json_dumps (VList [Demo.entry_1001]))
  /\ json_load RESULT_FILE st' = (Ok (VList [Demo.entry_1001]), st')
  /\ enrich_all jobs st = foldM enrich (drop 1 jobs) [Demo.entry_1001] st'.
Proof.
  intros jobs st st'.
  assert (foldM enrich (take 1 jobs) [] st = (Ok [Demo.entry_1001], st')) as H
    by (vm_compute; reflexivity).
  split; [exact H|].
  destruct (checkpoint_after_each_job jobs 1 st _ st'
              ltac:(simpl; lia) H) as (_ & _ & Hfile & Hload & Hrest).
  split; [exact Hfile|]. split; [exact (Hload demo_json_roundtrip) | exact Hrest].
Defined.

(** C1 (as stated) fails.  The summary of the first of two stored jobs is
    garbage.  The run ends there with [ValidationError]; the result file
    is never written, so the second job is missing from it as well,
    although enriching the second job from the state the run stopped in
    succeeds. *)
Lemma enrichment_stops_at_first_failure :
  let st := Demo.state [Demo.Garbage; Demo.summary_answer; Demo.relevance_answer] ∅ in
  let st1 := Demo.state [Demo.summary_answer; Demo.relevance_answer] ∅ in
  enrich_all [Demo.job_1001; Demo.job_1002] st = (Raise ValidationError, st1)
  /\ files st1 !! RESULT_FILE = None
  /\ enrich_all [Demo.job_1002] st1
     = (Ok [Demo.entry_1002],
        Demo.state [] (Demo.one_file RESULT_FILE (Demo.Doc (VList [Demo.entry_1002])))).
Proof. intros st st1. repeat split; vm_compute; reflexivity. Qed.

Lemma model_error_aborts_run_witness :
  let st := Demo.state [Demo.summary_answer; Demo.relevance_answer; Demo.Garbage] ∅ in
  let st1 :=
    Demo.state [Demo.Garbage]
      (Demo.one_file RESULT_FILE (Demo.Doc (VList [Demo.entry_1001]))) in
  let st2 :=
    Demo.state [] (Demo.one_file RESULT_FILE (Demo.Doc (VList [Demo.entry_1001]))) in
  main (Demo.state [Demo.Garbage] ∅) = (Raise ValidationError, Demo.state [] ∅)
  /\ enrich Demo.job_1002 [Demo.entry_1001] st1 = (Raise ValidationError, st2)
  /\ enrich Demo.job_1002 [] (Demo.state [Demo.summary_answer; Demo.Garbage] ∅)
     = (Raise ValidationError, Demo.state [] ∅)
  /\ enrich_all ([Demo.job_1001] ++ Demo.job_1002 :: [Demo.job_1001]) st
     = (Raise ValidationError, st2)
  /\ files st2 = files st1
  /\ files st2 !! RESULT_FILE = Some (json_dumps (VList [Demo.entry_1001])).
Proof.
  intros st st1 st2.
  destruct (@model_error_aborts_run Demo.platform)
    as (Hplan & Hsummary & Hverdict & Hloop).
  split.
  { apply (Hplan (Demo.state [Demo.Garbage] ∅) Demo.Garbage []); reflexivity. }
  split.
  { apply (Hsummary (Demo.fields_of Demo.job_1002)
             (VStr "Research assistant, embryology") (VStr UNKNOWN) (VStr UNKNOWN)
             st1 Demo.Garbage []); reflexivity. }
  split.
  { apply (Hverdict (Demo.fields_of Demo.job_1002)
             (VStr "Research assistant, embryology")
             (Demo.state [Demo.summary_answer; Demo.Garbage] ∅)
             Demo.demo_summary (Demo.state [Demo.Garbage] ∅) Demo.Garbage []);
      reflexivity. }
  destruct (Hloop [Demo.job_1001] Demo.job_1002 [Demo.job_1001] st
              [Demo.entry_1001] st1 ValidationError st2
              ltac:(vm_compute; reflexivity) ltac:(vm_compute; reflexivity))
    as (Hrun & Hfiles & Hkept & _).
  split; [exact Hrun|]. split; [exact Hfiles|]. apply Hkept. discriminate.
Defined.

(** C7 (as stated) fails.  A well-typed verdict with a confidence of 7.5
    passes validation, and [is_job_relevant] returns it as it is. *)
Lemma overconfident_verdict_is_accepted :
  exists r,
    RelevanceResult_validate Demo.overconfident = Some r
    /\ is_job_relevant
         (VDict [("title", VStr "PhD position"); ("summary", VNone)])
         user_profile keywords excluded_keywords
         (Demo.state [Demo.Doc Demo.overconfident] ∅)
       = (Ok r, Demo.state [] ∅)
    /\ confidence r = 7.5%float
    /\ ~ in_unit_interval (confidence r).
Proof.
  eexists. split; [reflexivity|]. split; [vm_compute; reflexivity|].
  split; [reflexivity|].
  intros [_ H]. vm_compute in H. discriminate H.
Qed.

Lemma relevance_validation_witness :
  let job := [("title", VStr "PhD position"); ("summary", VNone)] in
  let lenient :=
    [ ("relevant", VStr "yes"); ("explanation", VStr "Close.");
      ("confidence", VStr "0.5") ] in
  (exists vb vc,
      Dict.get "relevant" lenient = Some vb
      /\ as_bool vb = Some true
      /\ Dict.get "explanation" lenient = Some (VStr "Close.")
      /\ Dict.get "confidence" lenient = Some vc
      /\ as_float vc = Some 0.5%float)
  /\ is_job_relevant (VDict job) user_profile keywords excluded_keywords
       (Demo.state [Demo.Garbage] ∅)
     = (Raise ValidationError, Demo.state [] ∅)
  /\ is_job_relevant (VDict job) user_profile keywords excluded_keywords
       (Demo.state [Demo.relevance_answer] ∅)
     = (Ok Demo.demo_verdict, Demo.state [] ∅).
Proof.
  intros job lenient.
  destruct (@relevance_validation Demo.platform) as (Hfields & _ & _ & Hrun).
  split; [|split].
  - apply (Hfields lenient
             {| relevant := true; explanation := "Close.";
                confidence := 0.5 |}).
    reflexivity.
  - apply (Hrun job (VStr "PhD position") VNone user_profile keywords
             excluded_keywords (Demo.state [Demo.Garbage] ∅) Demo.Garbage []);
      reflexivity.
  - apply (Hrun job (VStr "PhD position") VNone user_profile keywords
             excluded_keywords (Demo.state [Demo.relevance_answer] ∅)
             Demo.relevance_answer []);
      reflexivity.
Defined.

Lemma enriched_job_keeps_fields_witness :
  Demo.entry_1001
  = VDict (Demo.fields_of Demo.job_1001
           ++ [ ("summary", summary_dict Demo.demo_summary);
                ("relevance", relevance_dict Demo.demo_verdict) ])
  /\ Forall2 entry_of [Demo.job_1001] [Demo.entry_1001].
Proof.
  destruct (@enriched_job_keeps_fields Demo.platform) as (Hone & Hall).
  split.
  - destruct (Hone (Demo.fields_of Demo.job_1001) Demo.demo_summary
                Demo.demo_verdict) as (e & He & _ & _ & _ & _ & Hext).
    unfold Demo.entry_1001. rewrite He. f_equal. apply Hext.
    exists "1001", Demo.detail_1001. reflexivity.
  - apply (Hall [Demo.job_1001]
             (Demo.state [Demo.summary_answer; Demo.relevance_answer] ∅)
             [Demo.entry_1001]
             (Demo.state []
                (Demo.one_file RESULT_FILE (Demo.Doc (VList [Demo.entry_1001]))))).
    vm_compute. reflexivity.
Defined.

(** The end-to-end scenario of the specification: two identifiers for one
    query, fixed answers of the model, and a result store of exactly two
    entries that match them field for field. *)
Example end_to_end :
  let answers :=
    [ Demo.plan_answer; Demo.summary_answer; Demo.relevance_answer;
      Demo.summary_answer; Demo.relevance_answer ] in
  exists st',
    main (Demo.state answers ∅) = (Ok [Demo.entry_1001; Demo.entry_1002], st')
    /\ files st' !! RESULT_FILE
       = Some (Demo.Doc (VList [Demo.entry_1001; Demo.entry_1002])).
Proof. intros answers. eexists. split; vm_compute; reflexivity. Qed.

(** ** Further runs on the concrete platforms *)

Lemma job_id_of_card_witness :
  exists job_id,
    job_id_of
      (Tag "li" []
         [ Tag "div" [("class", "base-card relative");
                      ("data-entity-urn", "urn:li:jobPosting:1001")] [] ])
    = Ok (Some job_id)
    /\ (":"%char ∉ chars job_id)
    /\ ("urn:li:jobPosting:1001" = job_id
        \/ exists p, "urn:li:jobPosting:1001" = (p ++ String ":" job_id)%string).
Proof.
  destruct job_id_of_card as [_ H].
  apply (H _ (Tag "div" [("class", "base-card relative");
                         ("data-entity-urn", "urn:li:jobPosting:1001")] []));
    reflexivity.
Defined.

Lemma find_is_first_match_witness :
  exists before after,
    Soup.all_nodes Demo.detail_1001
    = before
      ++ Tag "span" [("class", "num-applicants__caption")]
           [ NavigableString "25 applicants" ] :: after
    /\ Soup.matches "span" (Some "num-applicants__caption")
         (Tag "span" [("class", "num-applicants__caption")]
            [ NavigableString "25 applicants" ]) = true
    /\ Forall (fun n => Soup.matches "span" (Some "num-applicants__caption") n = false)
         before.
Proof.
  apply (find_is_first_match "span" (Some "num-applicants__caption")
           Demo.detail_1001).
  reflexivity.
Defined.

Lemma range_increasing_witness :
  StronglySorted Z.lt (range 0 MAX_SCRAPE 25)
  /\ NoDup (range 0 MAX_SCRAPE 25)
  /\ (MAX_SCRAPE <= 0 -> range 0 MAX_SCRAPE 25 = []).
Proof. apply (range_increasing 0 MAX_SCRAPE 25). lia. Defined.

Lemma failed_detail_is_skipped_witness :
  let st := Demo.state [] ∅ in
  let jl := VList [Demo.job_1001] in
  scrape_job "9999" jl st = (Ok jl, st)
  /\ foldM scrape_job (["1001"] ++ "9999" :: ["1002"]) (VList []) st
     = foldM scrape_job ["1002"] jl st.
Proof.
  intros st jl.
  apply (failed_detail_is_skipped ["1001"] "9999" ["1002"] (VList []) st jl st
           {| status_code := 404; text := [] |} []).
  - vm_compute. reflexivity.
  - reflexivity.
  - simpl. lia.
Defined.

Lemma collected_ids_witness :
  foldM collect_id (Soup.find_all "li" None Demo.listing_page) [] (Demo.state [] ∅)
  = (Ok ["1001"; "1002"], Demo.state [] ∅)
  /\ foldM collect_id ([] ++ Tag "li" [] [ Tag "div" [("class", "base-card")] [] ]
                          :: Soup.find_all "li" None Demo.listing_page)
       [] (Demo.state [] ∅)
     = (Raise AttributeError, Demo.state [] ∅).
Proof.
  destruct (@collected_ids Demo.platform [] (Demo.state [] ∅)) as [Hok Hraise].
  split.
  - apply (Hok (Soup.find_all "li" None Demo.listing_page)).
    repeat constructor; eexists; reflexivity.
  - apply (Hraise [] _ _ AttributeError); [constructor | reflexivity].
Defined.


Lemma files_written_witness :
  let st :=
    Demo.state [ Demo.plan_answer; Demo.summary_answer; Demo.Garbage ]
      (Demo.one_file "./notes.txt" Demo.Garbage) in
  files (snd (main st)) !! "./notes.txt" = files st !! "./notes.txt".
Proof.
  intros st.
  destruct (@files_written Demo.platform "./notes.txt") as (_ & _ & _ & H).
  apply (H ltac:(discriminate) ltac:(discriminate) st (fst (main st))).
  by destruct (main st).
Defined.

Lemma get_job_offers_leaves_store_witness :
  let st' :=
    Demo.state []
      (Demo.one_file JOBS_FILE (Demo.Doc (VList [Demo.job_1001; Demo.job_1002]))) in
  get_job_offers Demo.demo_queries "Worldwide" (Demo.state [] ∅) = (Ok tt, st')
  /\ exists v,
       files st' !! JOBS_FILE = Some (json_dumps v)
       /\ (json_roundtrip Demo.platform ->
           json_load JOBS_FILE st' = (Ok v, st')).
Proof.
  intros st'.
  assert (get_job_offers Demo.demo_queries "Worldwide" (Demo.state [] ∅)
          = (Ok tt, st')) as H by (vm_compute; reflexivity).
  split; [exact H|].
  exact (get_job_offers_leaves_store _ _ _ _ _ H).
Defined.

Lemma calls_accumulate_witness :
  let st := Demo.state [] ∅ in
  let l1 := [Demo.job_1001; Demo.job_1002] in
  let st1 := Demo.state [] (Demo.one_file JOBS_FILE (Demo.Doc (VList l1))) in
  let st2 := Demo.state [] (Demo.one_file JOBS_FILE (Demo.Doc (VList (l1 ++ l1)))) in
  scrape_linkedin_jobs Demo.demo_queries "Worldwide" 0 st1 = (Ok (VList (l1 ++ l1)), st2)
  /\ exists new, VList (l1 ++ l1) = VList (l1 ++ new) /\ Forall scraped_record new.
Proof.
  intros st l1 st1 st2.
  assert (scrape_linkedin_jobs Demo.demo_queries "Worldwide" 0 st1
          = (Ok (VList (l1 ++ l1)), st2)) as H2 by (vm_compute; reflexivity).
  split; [exact H2|].
  apply (calls_accumulate Demo.demo_queries Demo.demo_queries "Worldwide"
           "Worldwide" 0 0 st l1 st1 _ st2 demo_json_roundtrip); [|exact H2].
  vm_compute. reflexivity.
Defined.

Lemma store_that_is_not_a_list_witness :
  let st := Demo.state [] (Demo.one_file JOBS_FILE (Demo.Doc (VDict []))) in
  scrape_job "1001" (VDict []) st = (Raise AttributeError, st)
  /\ files st !! JOBS_FILE = Some (json_dumps (VDict [])).
Proof.
  intros st.
  destruct (@store_that_is_not_a_list Demo.platform) as [Hjob Hcall].
  split.
  - apply (Hjob "1001" (VDict []) st
             {| status_code := 200; text := Demo.detail_1001 |} []);
      reflexivity.
  - apply (Hcall ["fertility research"] "Worldwide" 0 st (VDict []) (VDict []) st).
    + reflexivity.
    + reflexivity.
    + vm_compute. reflexivity.
Defined.

Lemma stored_job_must_have_the_text_fields_witness :
  let st := Demo.state [Demo.summary_answer] ∅ in
  enrich (VStr "title") [] st = (Raise TypeError, st)
  /\ enrich (VDict [("title", VStr "PhD position")]) [] st
     = (Raise (KeyError "description"), st).
Proof.
  intros st.
  destruct (@stored_job_must_have_the_text_fields Demo.platform [] st)
    as (Htype & _ & Hdesc & _).
  split.
  - apply Htype. discriminate.
  - apply (Hdesc _ (VStr "PhD position")); reflexivity.
Defined.

Lemma scraped_job_fails_only_on_validation_witness :
  enrich Demo.job_1001 [] (Demo.state [Demo.Garbage] ∅)
  = (Raise ValidationError, Demo.state [] ∅)
  /\ ValidationError = ValidationError.
Proof.
  assert (enrich Demo.job_1001 [] (Demo.state [Demo.Garbage] ∅)
          = (Raise ValidationError, Demo.state [] ∅)) as H
    by (vm_compute; reflexivity).
  split; [exact H|].
  apply (scraped_job_fails_only_on_validation Demo.job_1001 [] _ _ _
           ltac:(by exists "1001", Demo.detail_1001) H).
Defined.

Lemma enrich_success_witness :
  enrich Demo.job_1001 []
    (Demo.state [Demo.summary_answer; Demo.relevance_answer] ∅)
  = (Ok ([] ++ [Demo.entry_1001]),
     Demo.state []
       (Demo.one_file RESULT_FILE (Demo.Doc (VList ([] ++ [Demo.entry_1001]))))).
Proof.
  apply (enrich_success (Demo.fields_of Demo.job_1001)
           (VStr "PhD position in reproductive biology")
           (VStr "Study of fertility. Apply now.") (VStr UNKNOWN)
           (Demo.state [Demo.summary_answer; Demo.relevance_answer] ∅)
           Demo.summary_answer [Demo.relevance_answer] Demo.demo_summary
           Demo.relevance_answer [] Demo.demo_verdict []);
    reflexivity.
Defined.

Lemma main_result_witness :
  let answers :=
    [ Demo.plan_answer; Demo.summary_answer; Demo.relevance_answer;
      Demo.summary_answer; Demo.relevance_answer ] in
  let acc := [Demo.entry_1001; Demo.entry_1002] in
  exists st',
    main (Demo.state answers ∅) = (Ok acc, st')
    /\ files st' !! RESULT_FILE = Some (json_dumps (VList acc)).
Proof.
  intros answers acc. eexists. split; [vm_compute; reflexivity|].
  refine (proj1 (proj2 (main_result (Demo.state answers ∅) acc _ _)) _).
  - vm_compute. reflexivity.
  - discriminate.
Defined.

Lemma plan_is_the_answer_witness :
  generate_queries user_profile keywords excluded_keywords
    (Demo.state [Demo.plan_answer] ∅)
  = (Ok {| location := "Worldwide"; queries := Demo.demo_queries |},
     Demo.state [] ∅).
Proof.
  apply (plan_is_the_answer user_profile keywords excluded_keywords
           (Demo.state [Demo.plan_answer] ∅) Demo.plan_answer []
           {| location := "Worldwide"; queries := Demo.demo_queries |}
           ltac:(reflexivity)).
  eexists. repeat split; reflexivity.
Defined.
